(** * Partial-update merging of [Order] entities

    A shallow embedding of the two TypeScript demonstration files

    - [libs/ts-risks/src/spread-operator.spec.ts]
      ([Order], [riskyUpdateOrder], [safeUpdateOrder]) and
    - its companion spec file, which declares its own [Order] together with
      [riskyUpdateConfig] and [safeUpdateConfig],

    over a small model of the JavaScript object heap.  TypeScript types are
    erased before the code runs, so values are modelled as they exist at run
    time: a field declared ['PENDING' | 'PAID' | 'CANCELLED'] holds a string,
    [amount] holds an IEEE-754 double, and an object is a heap cell reached
    through a reference, which is what makes aliasing and non-mutation
    statable. *)

From Stdlib Require Import PrimFloat.
From stdpp Require Import gmap strings pretty.

Local Open Scope string_scope.

(** ** JavaScript values, objects and the heap *)

Module JS.

Abbreviation loc := positive.

(** Run-time values.  Function values are not modelled: every own property
    is a data property. *)
Inductive value :=
| VUndefined
| VNull
| VBool (b : bool)
| VNumber (n : float)
| VString (s : string)
| VRef (l : loc).
Arguments VNumber n%_float.
Arguments VRef l%_positive.

(** The prototype of an object.  Each source file declares its own [Order]
    class: the one of [spread-operator.spec.ts] carries the method
    [isPaid], the one of the companion file carries no method.  An object
    whose prototype was set to [null] inherits nothing. *)
Inductive proto :=
| ObjectPrototype
| OrderPrototype
| ConfigOrderPrototype
| NullPrototype.

#[global] Instance proto_eq_dec : EqDecision proto.
Proof. solve_decision. Defined.

(** An object: its prototype and its own enumerable data properties.
    Property enumeration order is not observed by the modelled code. *)
Record object := Object {
  obj_proto : proto;
  obj_props : gmap string value
}.

Abbreviation heap := (gmap loc object).

Inductive exn :=
| TypeError
| UserError (name : string).

Definition InvalidFieldError : exn := UserError "InvalidFieldError".

Inductive outcome (A : Type) :=
| Normal (a : A)
| Throw (e : exn).
Arguments Normal {A} a.
Arguments Throw {A} e.

(** Computations thread the heap and may throw. *)
Definition M (A : Type) : Type := heap -> outcome A * heap.

Definition ret {A} (a : A) : M A := fun h => (Normal a, h).

Definition bind {A B} (m : M A) (k : A -> M B) : M B :=
  fun h =>
    match m h with
    | (Normal a, h') => k a h'
    | (Throw e, h') => (Throw e, h')
    end.

Definition when (b : bool) (m : M unit) : M unit :=
  if b then m else ret tt.

(** [ToBoolean]: the falsy values are [undefined], [null], [false], [+0],
    [-0], [NaN] and the empty string. *)
Definition ToBoolean (v : value) : bool :=
  match v with
  | VUndefined | VNull => false
  | VBool b => b
  | VNumber n => negb (is_zero n || is_nan n)
  | VString s => negb (String.eqb s "")
  | VRef _ => true
  end.

(** [a === b]. *)
Definition StrictEquals (a b : value) : bool :=
  match a, b with
  | VUndefined, VUndefined => true
  | VNull, VNull => true
  | VBool x, VBool y => Bool.eqb x y
  | VNumber x, VNumber y => PrimFloat.eqb x y
  | VString x, VString y => String.eqb x y
  | VRef x, VRef y => Pos.eqb x y
  | _, _ => false
  end.

(** The own enumerable properties of a primitive string: one property per
    index, holding the character at that index. *)
Fixpoint string_index_props (i : nat) (s : string) : gmap string value :=
  match s with
  | EmptyString => ∅
  | String c s' =>
      <[pretty i := VString (String c EmptyString)]>
        (string_index_props (S i) s')
  end.

(** The properties copied out of a source by [Object.assign] and by object
    spread: none for [undefined], [null], booleans and numbers, the index
    properties of a string, the own enumerable properties of an object. *)
Definition own_props (h : heap) (v : value) : gmap string value :=
  match v with
  | VRef l =>
      match h !! l with
      | Some o => obj_props o
      | None => ∅
      end
  | VString s => string_index_props 0 s
  | _ => ∅
  end.

(** The own property [k] of the object behind [v], [undefined] when there
    is none. *)
Definition field (h : heap) (v : value) (k : string) : value :=
  default VUndefined (match v with
                      | VRef l => h !! l ≫= fun o => obj_props o !! k
                      | _ => None
                      end).

(** [v.k] for a property name [k] that no built-in prototype and no class
    of the program defines (the source reads [status], [amount] and
    [metadata]): the own property, or [undefined]; reading a property of
    [undefined] or [null] throws. *)
Definition Get (v : value) (k : string) : M value :=
  fun h =>
    match v with
    | VUndefined | VNull => (Throw TypeError, h)
    | _ => (Normal (field h v k), h)
    end.

(** [l.k = v] on an object without setters. *)
Definition Put (l : loc) (k : string) (v : value) : M unit :=
  fun h =>
    (Normal tt,
     alter (fun o => Object (obj_proto o) (<[k := v]> (obj_props o))) l h).

(** Allocation of a new object at an unused location. *)
Definition alloc (o : object) : M loc :=
  fun h => let l := fresh (dom h) in (Normal l, <[l := o]> h).

(** [CopyDataProperties], the copy made by object spread: every own
    enumerable property of [source] is defined on [target] as an own
    property, later ones winning; a key [__proto__] is defined like any
    other. *)
Definition CopyDataProperties (target : loc) (source : value) : M unit :=
  fun h =>
    (Normal tt,
     alter (fun o => Object (obj_proto o) (own_props h source ∪ obj_props o))
           target h).

(** What the assignment [target.__proto__ = v] does on an object that
    inherits from [Object.prototype]: the inherited setter runs and no own
    property is created.  [null] becomes the prototype; an object becomes
    the prototype, which puts [target] in the class of that object; any
    other value is ignored.  Objects of this heap inherit from a class and
    never from one another, so of a prototype that is an object only its
    class is kept: the data properties that [target] would inherit from it
    are not represented. *)
Definition SetPrototype (h : heap) (current : proto) (v : value) : proto :=
  match v with
  | VNull => NullPrototype
  | VRef l =>
      match h !! l with
      | Some o => obj_proto o
      | None => current
      end
  | _ => current
  end.

(** [Object.assign(target, source)]: every own enumerable property of
    [source] is assigned to [target].  On a [target] that has no own
    property yet, as in both constructors, each assignment creates the own
    property, except that of the key [__proto__], which is [SetPrototype]. *)
Definition Object_assign (target : loc) (source : value) : M unit :=
  fun h =>
    let ps := own_props h source in
    (Normal tt,
     alter (fun o =>
              Object (match ps !! "__proto__" with
                      | Some v => SetPrototype h (obj_proto o) v
                      | None => obj_proto o
                      end)
                     (delete "__proto__" ps ∪ obj_props o))
           target h).

Definition proto_of (h : heap) (v : value) : option proto :=
  match v with
  | VRef l => obj_proto <$> h !! l
  | _ => None
  end.

(** [v instanceof C], [C] being the class whose prototype is [p]; the
    modelled classes do not extend one another. *)
Definition instanceOf (h : heap) (v : value) (p : proto) : bool :=
  match proto_of h v with
  | Some q => bool_decide (q = p)
  | None => false
  end.

(** A value is live in a heap when it is not a dangling reference; every
    value a running program holds is. *)
Definition live (h : heap) (v : value) : Prop :=
  match v with
  | VRef l => is_Some (h !! l)
  | _ => True
  end.

End JS.

Export JS.
Arguments VNumber n%_float.
Arguments VRef l%_positive.

Declare Scope js_scope.
Delimit Scope js_scope with js.
Notation "x <~ m ;; k" := (bind m (fun x => k))
  (at level 100, m at next level, right associativity) : js_scope.
Notation "m ;;; k" := (bind m (fun _ => k))
  (at level 100, right associativity) : js_scope.
Local Open Scope js_scope.

(** ** [libs/ts-risks/src/spread-operator.spec.ts] *)

Module SpreadOperator.

(** [new Order(partial)].  The declared fields have no initialiser, so
    they emit no code (TypeScript's assignment semantics for class fields),
    and the constructor body is [Object.assign(this, partial)]. *)
Definition new_Order (partial : value) : M loc :=
  this <~ alloc (Object OrderPrototype ∅) ;;
  Object_assign this partial ;;;
  ret this.

(** The body of the method: [return this.status === 'PAID']. *)
Definition Order_isPaid (this : value) : M value :=
  s <~ Get this "status" ;;
  ret (VBool (StrictEquals s (VString "PAID"))).

(** The call [v.isPaid()]: the method is found on [Order.prototype] unless
    an own property of that name shadows it; an own property is a data
    property, and calling what is not a function throws [TypeError], as
    does calling the [undefined] that a plain object answers. *)
Definition call_isPaid (v : value) : M value :=
  fun h =>
    match v with
    | VRef l =>
        match h !! l with
        | Some o =>
            match obj_props o !! "isPaid", obj_proto o with
            | None, OrderPrototype => Order_isPaid v h
            | _, _ => (Throw TypeError, h)
            end
        | None => (Throw TypeError, h)
        end
    | _ => (Throw TypeError, h)
    end.

(** [return { ...original, ...updates }]. *)
Definition riskyUpdateOrder (original updates : value) : M value :=
  result <~ alloc (Object ObjectPrototype ∅) ;;
  CopyDataProperties result original ;;;
  CopyDataProperties result updates ;;;
  ret (VRef result).

Definition safeUpdateOrder (original updates : value) : M value :=
  updated <~ new_Order original ;;
  (c <~ Get updates "status" ;;
   when (ToBoolean c)
     (s <~ Get updates "status" ;; Put updated "status" s)) ;;;
  (c <~ Get updates "amount" ;;
   when (ToBoolean c)
     (a <~ Get updates "amount" ;; Put updated "amount" a)) ;;;
  (c <~ Get updates "metadata" ;;
   when (ToBoolean c)
     (merged <~ alloc (Object ObjectPrototype ∅) ;;
      (m <~ Get original "metadata" ;; CopyDataProperties merged m) ;;;
      (m <~ Get updates "metadata" ;; CopyDataProperties merged m) ;;;
      Put updated "metadata" (VRef merged))) ;;;
  ret (VRef updated).

End SpreadOperator.

(** ** The companion file: [riskyUpdateConfig] and [safeUpdateConfig] *)

Module ConfigVariant.

(** This file's [class Order] has the same fields and constructor and no
    method. *)
Definition new_Order (partial : value) : M loc :=
  this <~ alloc (Object ConfigOrderPrototype ∅) ;;
  Object_assign this partial ;;;
  ret this.

Definition riskyUpdateConfig (original updates : value) : M value :=
  result <~ alloc (Object ObjectPrototype ∅) ;;
  CopyDataProperties result original ;;;
  CopyDataProperties result updates ;;;
  ret (VRef result).

Definition safeUpdateConfig (original updates : value) : M value :=
  updated <~ new_Order original ;;
  (c <~ Get updates "status" ;;
   when (ToBoolean c)
     (s <~ Get updates "status" ;; Put updated "status" s)) ;;;
  (c <~ Get updates "amount" ;;
   when (ToBoolean c)
     (a <~ Get updates "amount" ;; Put updated "amount" a)) ;;;
  (c <~ Get updates "metadata" ;;
   when (ToBoolean c)
     (merged <~ alloc (Object ObjectPrototype ∅) ;;
      (m <~ Get original "metadata" ;; CopyDataProperties merged m) ;;;
      (m <~ Get updates "metadata" ;; CopyDataProperties merged m) ;;;
      Put updated "metadata" (VRef merged))) ;;;
  ret (VRef updated).

End ConfigVariant.

Export SpreadOperator.

(** ** Entities and updates *)

(** The declared fields of [Order], and the closed enumeration of
    [status]. *)
Definition Order_fields : list string := ["id"; "amount"; "status"; "metadata"].

Definition statuses : list string := ["PENDING"; "PAID"; "CANCELLED"].

Definition is_plain_object (h : heap) (v : value) : bool :=
  match v with
  | VRef l =>
      match h !! l with
      | Some o => bool_decide (obj_proto o = ObjectPrototype)
      | None => false
      end
  | _ => false
  end.

(** [field_ok h k v]: [k] is a declared field of [Order] and [v] has the
    type declared for it: [id: string], [amount: number],
    [status: 'PENDING' | 'PAID' | 'CANCELLED'],
    [metadata: Record<string, any>]. *)
Definition field_ok (h : heap) (k : string) (v : value) : bool :=
  if String.eqb k "id" then
    match v with VString _ => true | _ => false end
  else if String.eqb k "amount" then
    match v with VNumber _ => true | _ => false end
  else if String.eqb k "status" then
    match v with VString s => bool_decide (s ∈ statuses) | _ => false end
  else if String.eqb k "metadata" then is_plain_object h v
  else false.

(** A field of a [Partial<Order>] may also be spelled out as [undefined]. *)
Definition optional_field_ok (h : heap) (k : string) (v : value) : bool :=
  match v with
  | VUndefined => bool_decide (k ∈ Order_fields)
  | _ => field_ok h k v
  end.

(** The own properties of an entity: declared fields only, each of its
    declared type.  The constructor takes a [Partial<Order>], so a field may
    be missing, as in the source's tests. *)
Definition typed_fields (h : heap) (p : gmap string value) : Prop :=
  map_Forall (fun k v => field_ok h k v = true) p.

(** The own properties of an update. *)
Definition partial_fields (h : heap) (p : gmap string value) : Prop :=
  map_Forall (fun k v => optional_field_ok h k v = true) p.

#[global] Instance typed_fields_dec h p : Decision (typed_fields h p).
Proof. unfold typed_fields. apply _. Defined.

#[global] Instance partial_fields_dec h p : Decision (partial_fields h p).
Proof. unfold partial_fields. apply _. Defined.

(** ** What the safe update computes *)

Definition prop_of (o : object) (k : string) : value :=
  default VUndefined (obj_props o !! k).

(** [if (updates.k) updated.k = updates.k] on the properties of
    [updated]. *)
Definition assign_if_truthy (u : object) (k : string)
    (p : gmap string value) : gmap string value :=
  if ToBoolean (prop_of u k) then <[k := prop_of u k]> p else p.

(** The properties and the prototype that the constructor gives the copy
    of [o]. *)
Definition constructed_props (o : object) : gmap string value :=
  delete "__proto__" (obj_props o).

Definition constructed_proto (h : heap) (P : proto) (o : object) : proto :=
  match obj_props o !! "__proto__" with
  | Some v => SetPrototype h P v
  | None => P
  end.

Definition result_props (o u : object) : gmap string value :=
  assign_if_truthy u "amount"
    (assign_if_truthy u "status" (constructed_props o)).

(** [{ ...original.metadata, ...updates.metadata }]: stdpp's union keeps the
    left value on a shared key, so the update's properties stand left. *)
Definition merged_props (h : heap) (o u : object) : gmap string value :=
  own_props h (prop_of u "metadata") ∪ own_props h (prop_of o "metadata").

(** The result is allocated first, the merged metadata object second. *)
Definition result_loc (h : heap) : loc := fresh (dom h).

Definition merged_loc (h : heap) : loc := fresh ({[result_loc h]} ∪ dom h).

(** The heap a safe update ends in, [P] being the prototype of the class and
    [m] the properties of the merged metadata object. *)
Definition final_heap (P : proto) (h : heap) (o u : object)
    (m : gmap string value) : heap :=
  if ToBoolean (prop_of u "metadata")
  then <[result_loc h :=
           Object P (<["metadata" := VRef (merged_loc h)]> (result_props o u))]>
         (<[merged_loc h := Object ObjectPrototype m]> h)
  else <[result_loc h := Object P (result_props o u)]> h.

(** The only exception the modelled operations raise is the [TypeError] of
    a property read on [undefined] or [null]. *)
Definition throws_only_TypeError {A} (m : M A) : Prop :=
  forall h e h', m h = (Throw e, h') -> e = TypeError.

(** ** Fixtures of the source's tests *)

Definition obj (p : proto) (kvs : list (string * value)) : object :=
  Object p (list_to_map kvs).

Definition order_o_123 : object :=
  obj OrderPrototype
    [("id", VString "o_123"); ("amount", VNumber 100);
     ("status", VString "PENDING"); ("metadata", VRef 1)].

Definition update_paid_trace : object :=
  obj ObjectPrototype [("status", VString "PAID"); ("metadata", VRef 3)].

(** The heap of the scenario: the order's metadata at 1, the order at 2, the
    update's metadata at 3, the update at 4. *)
Definition scenario_heap : heap :=
  list_to_map
    [ (1%positive, obj ObjectPrototype
          [("campaign", VString "summer_sale"); ("referrer", VString "google")]);
      (2%positive, order_o_123);
      (3%positive, obj ObjectPrototype [("traceId", VString "safe_1")]);
      (4%positive, update_paid_trace) ].

(** An order without metadata at 1, and at 2 an update of one scalar
    field. *)
Definition order_1 : object :=
  obj OrderPrototype
    [("id", VString "1"); ("amount", VNumber 100); ("status", VString "PAID")].

Definition scalar_heap (k : string) (v : value) : heap :=
  list_to_map [ (1%positive, order_1); (2%positive, obj ObjectPrototype [(k, v)]) ].

Definition empty_update_heap : heap :=
  list_to_map [ (1%positive, order_1); (2%positive, obj ObjectPrototype []) ].

(** ** Absent arguments *)

(** [undefined] and [null], the values a property read throws on. *)
Definition nullish (v : value) : bool :=
  match v with
  | VUndefined | VNull => true
  | _ => false
  end.

(** ** The fulfilment services of the parameter-coupling demonstration *)

Module Fulfillment.

Record Address := { street : string; zip : string }.

Record PaymentMethod := { last4 : string; token : string }.

(** [type Customer]: [address?] and [paymentMethod?] are optional. *)
Record Customer := {
  id : string;
  name : string;
  address : option Address;
  paymentMethod : option PaymentMethod
}.

(** How a call ends: with the returned string, with a thrown [Error]
    carrying a message, or with the [TypeError] of reading a property of
    [undefined].  For the [async] method this is how the returned promise
    settles; its body contains no [await]. *)
Inductive completion :=
| Returned (s : string)
| ThrownError (message : string)
| ThrownTypeError.

(** The template literal shared by both services. *)
Definition shipped (item : string) (a : Address) (p : PaymentMethod) : string :=
  "Shipped " ++ item ++ " to " ++ street a
  ++ " using card ending in " ++ last4 p.

(** [LegacyFulfillmentService.processOrder]: only the address is guarded. *)
Definition Legacy_processOrder (customer : Customer) (item : string)
    : completion :=
  match address customer with
  | None => ThrownError "Missing Address"
  | Some a =>
      match paymentMethod customer with
      | None => ThrownTypeError
      | Some p => Returned (shipped item a p)
      end
  end.

(** The database as the service sees it: the one method it calls, whose
    result the service tests for falsiness ([None]). *)
Record Database := {
  getCustomerWithDetails : string -> option Customer
}.

(** [class MockDatabase]. *)
Definition MockDatabase : Database :=
  {| getCustomerWithDetails id :=
       Some {| id := id;
               name := "John Doe";
               address := Some {| street := "123 Main St"; zip := "90210" |};
               paymentMethod := Some {| last4 := "4242"; token := "tok_123" |}
            |} |}.

(** [ModernFulfillmentService.processOrder], [db] being the service's
    private database. *)
Definition Modern_processOrder (db : Database) (customerId item : string)
    : completion :=
  match getCustomerWithDetails db customerId with
  | None => ThrownError "Customer data incomplete"
  | Some customer =>
      match address customer, paymentMethod customer with
      | Some a, Some p => Returned (shipped item a p)
      | _, _ => ThrownError "Customer data incomplete"
      end
  end.

End Fulfillment.

(** * Properties *)

(** ** The source's own tests, replayed *)

Example scenario_run :
  let '(r, h') := safeUpdateOrder (VRef 2) (VRef 4) scenario_heap in
  r = Normal (VRef 5) /\
  field h' (VRef 5) "id" = VString "o_123" /\
  field h' (VRef 5) "amount" = VNumber 100 /\
  field h' (VRef 5) "status" = VString "PAID" /\
  field h' (VRef 5) "metadata" = VRef 6 /\
  own_props h' (VRef 6) =
    list_to_map [("campaign", VString "summer_sale");
                 ("referrer", VString "google");
                 ("traceId", VString "safe_1")] /\
  call_isPaid (VRef 5) h' = (Normal (VBool true), h') /\
  instanceOf h' (VRef 5) OrderPrototype = true.
Proof. vm_compute. repeat split; reflexivity. Qed.

Example risk_1_methods_lost :
  let '(r, h') := riskyUpdateOrder (VRef 1) (VRef 2)
                    (scalar_heap "amount" (VNumber 200)) in
  r = Normal (VRef 3) /\
  field h' (VRef 3) "amount" = VNumber 200 /\
  call_isPaid (VRef 3) h' = (Throw TypeError, h') /\
  instanceOf h' (VRef 3) OrderPrototype = false.
Proof. vm_compute. repeat split; reflexivity. Qed.

Example risk_2_metadata_lost :
  let '(r, h') := riskyUpdateOrder (VRef 2) (VRef 4) scenario_heap in
  r = Normal (VRef 5) /\
  field h' (VRef 5) "metadata" = VRef 3 /\
  field h' (VRef 3) "referrer" = VUndefined /\
  field h' (VRef 3) "traceId" = VString "safe_1".
Proof. vm_compute. repeat split; reflexivity. Qed.

Example config_safe_pattern :
  let '(r, h') := ConfigVariant.safeUpdateConfig (VRef 2) (VRef 4) scenario_heap in
  r = Normal (VRef 5) /\
  field h' (VRef 5) "metadata" = VRef 6 /\
  field h' (VRef 6) "referrer" = VString "google" /\
  field h' (VRef 6) "traceId" = VString "safe_1" /\
  instanceOf h' (VRef 5) ConfigOrderPrototype = true.
Proof. vm_compute. repeat split; reflexivity. Qed.

(** The union example: [{a: 1, b: 2}] merged with [{b: 9, c: 3}] gives
    [{a: 1, b: 9, c: 3}]. *)
Example metadata_union_merge :
  let h : heap :=
    list_to_map
      [ (1%positive, obj ObjectPrototype [("a", VNumber 1); ("b", VNumber 2)]);
        (2%positive, obj OrderPrototype [("id", VString "e"); ("metadata", VRef 1)]);
        (3%positive, obj ObjectPrototype [("b", VNumber 9); ("c", VNumber 3)]);
        (4%positive, obj ObjectPrototype [("metadata", VRef 3)]) ] in
  let '(r, h') := safeUpdateOrder (VRef 2) (VRef 4) h in
  own_props h' (field h' (VRef 5) "metadata")
  = list_to_map [("a", VNumber 1); ("b", VNumber 9); ("c", VNumber 3)].
Proof. vm_compute. reflexivity. Qed.

(** A source that owns the key [__proto__], as a parsed JSON text can.  The
    constructor assigns it, which sets the prototype and creates no own
    property: under a plain object the new object is no [Order] and
    [isPaid()] throws, under [null] it inherits nothing, under a number it
    stays an [Order].  The spread defines the key as an own property. *)
Example constructor_proto_key :
  let source v : heap :=
    list_to_map
      [ (1%positive, obj ObjectPrototype [("status", VString "PAID")]);
        (2%positive, obj ObjectPrototype
            [("__proto__", v); ("id", VString "o_1");
             ("status", VString "PENDING")]) ] in
  let '(_, h1) := new_Order (VRef 2) (source (VRef 1)) in
  let '(_, h2) := new_Order (VRef 2) (source VNull) in
  let '(_, h3) := new_Order (VRef 2) (source (VNumber 7)) in
  let '(_, h4) := riskyUpdateOrder (VRef 2) (VRef 1) (source (VRef 1)) in
  dom (own_props h1 (VRef 3)) = {["id"; "status"]} /\
  instanceOf h1 (VRef 3) OrderPrototype = false /\
  call_isPaid (VRef 3) h1 = (Throw TypeError, h1) /\
  dom (own_props h2 (VRef 3)) = {["id"; "status"]} /\
  proto_of h2 (VRef 3) = Some NullPrototype /\
  dom (own_props h3 (VRef 3)) = {["id"; "status"]} /\
  instanceOf h3 (VRef 3) OrderPrototype = true /\
  call_isPaid (VRef 3) h3 = (Normal (VBool false), h3) /\
  dom (own_props h4 (VRef 3)) = {["__proto__"; "id"; "status"]}.
Proof. vm_compute. repeat split; reflexivity. Qed.

(** Spreading a primitive string copies its characters by index. *)
Example spread_of_a_string :
  own_props ∅ (VString "ab") =
  list_to_map [("0", VString "a"); ("1", VString "b")].
Proof. vm_compute. reflexivity. Qed.

(** ** Fresh locations and the frame *)

Lemma fresh_None (h : heap) : h !! fresh (dom h) = None.
Proof. apply not_elem_of_dom, is_fresh. Qed.

Lemma fresh_ne (h : heap) l o : h !! l = Some o -> l <> fresh (dom h).
Proof. intros H ->. rewrite fresh_None in H. discriminate. Qed.

Lemma field_ref (h : heap) l o k :
  h !! l = Some o -> field h (VRef l) k = prop_of o k.
Proof. intros H. unfold field, prop_of. by rewrite H. Qed.

Lemma own_props_frame (h h' : heap) v :
  live h v ->
  (forall l x, h !! l = Some x -> h' !! l = Some x) ->
  own_props h' v = own_props h v.
Proof.
  intros Hv Hsub. destruct v; try reflexivity.
  destruct Hv as [x Hx]. cbn. by rewrite (Hsub _ _ Hx), Hx.
Qed.

Lemma StrictEquals_string v s :
  StrictEquals v (VString s) = true <-> v = VString s.
Proof.
  destruct v; cbn; try (split; [discriminate | intros [=]]).
  rewrite String.eqb_eq. split; [by intros -> | by intros [= ->]].
Qed.

Lemma assign_lookup_ne u k k' p :
  k <> k' -> assign_if_truthy u k p !! k' = p !! k'.
Proof.
  intros Hne. unfold assign_if_truthy.
  destruct (ToBoolean _); [by rewrite lookup_insert_ne | done].
Qed.

Lemma assign_lookup_absent u k p :
  obj_props u !! k = None -> assign_if_truthy u k p = p.
Proof. intros H. unfold assign_if_truthy, prop_of. by rewrite H. Qed.

Lemma assign_lookup_truthy u k p :
  ToBoolean (prop_of u k) = true ->
  assign_if_truthy u k p !! k = Some (prop_of u k).
Proof.
  intros H. unfold assign_if_truthy. rewrite H. apply lookup_insert_eq.
Qed.

(** The prototype the setter chooses is the same whether it is looked up
    before or after the target was allocated. *)
Lemma SetPrototype_alloc (h : heap) r P ps v :
  h !! r = None ->
  SetPrototype (<[r := Object P ps]> h) P v = SetPrototype h P v.
Proof.
  intros Hr. destruct v; try reflexivity. cbn.
  destruct (decide (l = r)) as [->|Hne].
  - by rewrite lookup_insert_eq, Hr.
  - by rewrite lookup_insert_ne.
Qed.

Lemma constructed_proto_alloc (h : heap) r P ps o :
  h !! r = None ->
  match obj_props o !! "__proto__" with
  | Some v => SetPrototype (<[r := Object P ps]> h) P v
  | None => P
  end = constructed_proto h P o.
Proof.
  intros Hr. unfold constructed_proto.
  destruct (obj_props o !! "__proto__"); [by apply SetPrototype_alloc|done].
Qed.

Lemma constructed_props_lookup o k :
  k <> "__proto__" -> constructed_props o !! k = obj_props o !! k.
Proof. intros Hk. unfold constructed_props. by rewrite lookup_delete_ne. Qed.

Lemma constructed_props_id o :
  obj_props o !! "__proto__" = None -> constructed_props o = obj_props o.
Proof. intros H. unfold constructed_props. by apply delete_id. Qed.

Lemma constructed_proto_id (h : heap) P o :
  obj_props o !! "__proto__" = None -> constructed_proto h P o = P.
Proof. intros H. unfold constructed_proto. by rewrite H. Qed.

(** ** The phases of the safe update *)

Section Phases.
Context (h : heap) (lo lu : loc) (o u : object).
Hypothesis Ho : h !! lo = Some o.
Hypothesis Hu : h !! lu = Some u.

(** [new Order(original)], for either class. *)
Lemma run_construct {A} (P : proto) (K : loc -> M A) :
  bind (this <~ alloc (Object P ∅) ;;
        Object_assign this (VRef lo) ;;; ret this) K h
  = K (fresh (dom h))
      (<[fresh (dom h) :=
           Object (constructed_proto h P o) (constructed_props o)]> h).
Proof using Ho.
  unfold bind, alloc, Object_assign, own_props, ret; cbn.
  rewrite lookup_insert_ne, Ho by (symmetry; eapply fresh_ne, Ho).
  rewrite alter_insert_eq; cbn.
  rewrite (constructed_proto_alloc h _ P ∅ o) by apply fresh_None.
  by rewrite (right_id ∅ (∪)).
Qed.

(** [if (updates.k) updated.k = updates.k]. *)
Lemma run_assign {A} (P : proto) r p k (K : unit -> M A) :
  h !! r = None ->
  bind (c <~ Get (VRef lu) k ;;
        when (ToBoolean c) (s <~ Get (VRef lu) k ;; Put r k s)) K
       (<[r := Object P p]> h)
  = K tt (<[r := Object P (assign_if_truthy u k p)]> h).
Proof using Hu.
  intros Hr. assert (r <> lu) by congruence.
  unfold bind, Get, field, when, Put, ret, assign_if_truthy, prop_of; cbn.
  rewrite lookup_insert_ne, Hu by done; cbn.
  destruct (ToBoolean _); cbn; [|done].
  rewrite lookup_insert_ne, Hu by done; cbn.
  by rewrite alter_insert_eq.
Qed.

(** [if (updates.metadata) updated.metadata = { ...original.metadata,
    ...updates.metadata }]. *)
Lemma run_merge {A} (P : proto) r p (K : unit -> M A) :
  h !! r = None ->
  let hr := <[r := Object P p]> h in
  let r2 := fresh (dom hr) in
  exists m,
    (live h (prop_of o "metadata") -> live h (prop_of u "metadata") ->
     m = merged_props h o u) /\
    bind (c <~ Get (VRef lu) "metadata" ;;
          when (ToBoolean c)
            (merged <~ alloc (Object ObjectPrototype ∅) ;;
             (m <~ Get (VRef lo) "metadata" ;; CopyDataProperties merged m) ;;;
             (m <~ Get (VRef lu) "metadata" ;; CopyDataProperties merged m) ;;;
             Put r "metadata" (VRef merged))) K hr
    = K tt (if ToBoolean (prop_of u "metadata")
            then <[r := Object P (<["metadata" := VRef r2]> p)]>
                   (<[r2 := Object ObjectPrototype m]> h)
            else hr).
Proof using Ho Hu.
  intros Hr hr r2.
  assert (Hr2 : hr !! r2 = None) by apply fresh_None.
  assert (r2 <> r)
    by (intros E; rewrite E in Hr2; subst hr; by rewrite lookup_insert_eq in Hr2).
  assert (h !! r2 = None) by (subst hr; by rewrite lookup_insert_ne in Hr2).
  assert (r <> lu /\ r <> lo /\ r2 <> lu /\ r2 <> lo) as (?&?&?&?)
    by (repeat split; congruence).
  set (ha := <[r2 := Object ObjectPrototype ∅]> hr).
  set (hb := <[r2 := Object ObjectPrototype
                       (own_props ha (prop_of o "metadata"))]> hr).
  exists (own_props hb (prop_of u "metadata")
          ∪ own_props ha (prop_of o "metadata")).
  split.
  - intros Lo Lu. unfold merged_props. f_equal.
    + destruct (prop_of u "metadata"); try done. destruct Lu as [x Hx].
      subst hb hr. cbn. rewrite !lookup_insert_ne by congruence. done.
    + destruct (prop_of o "metadata"); try done. destruct Lo as [x Hx].
      subst ha hr. cbn. rewrite !lookup_insert_ne by congruence. done.
  - subst ha hb hr. unfold bind at 1 2. unfold Get at 1. unfold field. cbn.
    rewrite lookup_insert_ne, Hu by done. cbn. fold (prop_of u "metadata").
    destruct (ToBoolean (prop_of u "metadata")) eqn:Hm; cbn; [|done].
    unfold bind, alloc, Get, field, CopyDataProperties, Put; cbn. fold r2.
    rewrite !lookup_insert_ne, Ho by done. cbn. fold (prop_of o "metadata").
    rewrite alter_insert_eq. cbn.
    rewrite !lookup_insert_ne, Hu by done. cbn. fold (prop_of u "metadata").
    rewrite alter_insert_eq. cbn.
    rewrite alter_insert_ne, alter_insert_eq by done. cbn.
    f_equal. rewrite insert_insert_ne by done. by rewrite !(right_id ∅ (∪)).
Qed.
End Phases.

(** ** The safe update, run on an entity and an update *)

Lemma result_loc_fresh (h : heap) : h !! result_loc h = None.
Proof. apply fresh_None. Qed.

Lemma merged_loc_fresh (h : heap) :
  h !! merged_loc h = None /\ merged_loc h <> result_loc h.
Proof.
  pose proof (is_fresh ({[result_loc h]} ∪ dom h)) as Hf.
  fold (merged_loc h) in Hf.
  split; [apply not_elem_of_dom|]; set_solver.
Qed.

Section Run.
Context (h : heap) (lo lu : loc) (o u : object).
Hypothesis Ho : h !! lo = Some o.
Hypothesis Hu : h !! lu = Some u.

Lemma safeUpdateOrder_run :
  exists m,
    (live h (prop_of o "metadata") -> live h (prop_of u "metadata") ->
     m = merged_props h o u) /\
    safeUpdateOrder (VRef lo) (VRef lu) h
    = (Normal (VRef (result_loc h)),
       final_heap (constructed_proto h OrderPrototype o) h o u m).
Proof using Ho Hu.
  destruct (run_merge h lo lu o u Ho Hu (A := value)
              (constructed_proto h OrderPrototype o)
              (result_loc h) (result_props o u)
              (fun _ => ret (VRef (result_loc h))) (fresh_None h))
    as (m & Hm & Hrun).
  exists m. split; [exact Hm|].
  unfold safeUpdateOrder, new_Order.
  rewrite (run_construct h lo o Ho). fold (result_loc h).
  rewrite (run_assign h lu u Hu) by apply fresh_None.
  rewrite (run_assign h lu u Hu) by apply fresh_None.
  fold (result_props o u). rewrite Hrun. unfold ret, final_heap, merged_loc.
  by rewrite dom_insert_L.
Qed.

Lemma safeUpdateConfig_run :
  exists m,
    (live h (prop_of o "metadata") -> live h (prop_of u "metadata") ->
     m = merged_props h o u) /\
    ConfigVariant.safeUpdateConfig (VRef lo) (VRef lu) h
    = (Normal (VRef (result_loc h)),
       final_heap (constructed_proto h ConfigOrderPrototype o) h o u m).
Proof using Ho Hu.
  destruct (run_merge h lo lu o u Ho Hu (A := value)
              (constructed_proto h ConfigOrderPrototype o)
              (result_loc h) (result_props o u)
              (fun _ => ret (VRef (result_loc h))) (fresh_None h))
    as (m & Hm & Hrun).
  exists m. split; [exact Hm|].
  unfold ConfigVariant.safeUpdateConfig, ConfigVariant.new_Order.
  rewrite (run_construct h lo o Ho). fold (result_loc h).
  rewrite (run_assign h lu u Hu) by apply fresh_None.
  rewrite (run_assign h lu u Hu) by apply fresh_None.
  fold (result_props o u). rewrite Hrun. unfold ret, final_heap, merged_loc.
  by rewrite dom_insert_L.
Qed.
End Run.

(** The result object sits at [result_loc] with the prototype it was built
    with. *)
Lemma final_result P (h : heap) o u m :
  final_heap P h o u m !! result_loc h
  = Some (Object P (if ToBoolean (prop_of u "metadata")
                    then <["metadata" := VRef (merged_loc h)]> (result_props o u)
                    else result_props o u)).
Proof.
  unfold final_heap. destruct (ToBoolean _); apply lookup_insert_eq.
Qed.

(** Nothing that was allocated before the call is touched. *)
Lemma final_frame P (h : heap) o u m l x :
  h !! l = Some x -> final_heap P h o u m !! l = Some x.
Proof.
  intros Hl. destruct (merged_loc_fresh h) as [H2 _].
  pose proof (result_loc_fresh h) as H1.
  unfold final_heap. destruct (ToBoolean _);
    rewrite !lookup_insert_ne by congruence; done.
Qed.

Lemma final_merged P (h : heap) o u m :
  ToBoolean (prop_of u "metadata") = true ->
  final_heap P h o u m !! merged_loc h = Some (Object ObjectPrototype m).
Proof.
  intros Hm. destruct (merged_loc_fresh h) as [_ Hne]. unfold final_heap.
  rewrite Hm, lookup_insert_ne by done. apply lookup_insert_eq.
Qed.

(** The scalar fields and [id] of the result. *)
Lemma final_field P (h : heap) o u m k :
  k <> "metadata" ->
  field (final_heap P h o u m) (VRef (result_loc h)) k = 
  default VUndefined (result_props o u !! k).
Proof.
  intros Hk. unfold field. rewrite final_result. cbn.
  destruct (ToBoolean _); [by rewrite lookup_insert_ne|done].
Qed.


Lemma assign_lookup_omitted u k k' p :
  obj_props u !! k' = None -> assign_if_truthy u k p !! k' = p !! k'.
Proof.
  intros H. destruct (decide (k = k')) as [->|Hne].
  - by rewrite assign_lookup_absent.
  - by rewrite assign_lookup_ne.
Qed.


(** ** The risky update *)

Lemma riskyUpdateOrder_run (h : heap) lo lu o u :
  h !! lo = Some o -> h !! lu = Some u ->
  riskyUpdateOrder (VRef lo) (VRef lu) h
  = (Normal (VRef (result_loc h)),
     <[result_loc h := Object ObjectPrototype (obj_props u ∪ obj_props o)]> h).
Proof.
  intros Ho Hu. pose proof (result_loc_fresh h) as Hr.
  unfold riskyUpdateOrder, bind, alloc, CopyDataProperties, own_props, ret; cbn.
  fold (result_loc h).
  rewrite lookup_insert_ne, Ho, alter_insert_eq by congruence. cbn.
  rewrite lookup_insert_ne, Hu, alter_insert_eq by congruence. cbn.
  by rewrite (right_id ∅ (∪)).
Qed.

(** ** Exceptions *)

Lemma bind_only_TypeError {A B} (m : M A) (k : A -> M B) :
  throws_only_TypeError m -> (forall a, throws_only_TypeError (k a)) ->
  throws_only_TypeError (bind m k).
Proof.
  intros Hm Hk h e h'. unfold bind. destruct (m h) as [[a|e'] h1] eqn:E.
  - apply Hk.
  - intros [= <- <-]. eapply Hm, E.
Qed.

Lemma when_only_TypeError b (m : M unit) :
  throws_only_TypeError m -> throws_only_TypeError (when b m).
Proof. destruct b; [done|]. by intros _ h e h'. Qed.

Lemma Get_only_TypeError v k : throws_only_TypeError (Get v k).
Proof. intros h e h'. destruct v; cbn; by intros [=]. Qed.

Lemma safeUpdateOrder_only_TypeError original updates :
  throws_only_TypeError (safeUpdateOrder original updates).
Proof.
  unfold safeUpdateOrder, new_Order, Object_assign.
  repeat first
    [ apply bind_only_TypeError; [|intros ?]
    | apply when_only_TypeError
    | apply Get_only_TypeError
    | (by intros ? ? ?) ].
Qed.

(** * The claims *)

(** C1, as stated, fails: an update whose [status] is outside the
    enumeration is not rejected.  On the order [{id: '1', amount: 100,
    status: 'PAID'}] and the update [{status: 'UNKNOWN'}] the safe update
    returns normally, raises no [InvalidFieldError], and the result carries
    the status ['UNKNOWN']. *)
Lemma unknown_status_not_rejected :
  let '(r, h') := safeUpdateOrder (VRef 1) (VRef 2)
                    (scalar_heap "status" (VString "UNKNOWN")) in
  r = Normal (VRef 3) /\
  r <> Throw InvalidFieldError /\
  field h' (VRef 3) "status" = VString "UNKNOWN".
Proof.
  vm_compute. split; [reflexivity|]. split; [discriminate | reflexivity].
Qed.

(** C1, amended: no call of [safeUpdateOrder] fails with
    [InvalidFieldError]; on an entity and an update that supplies a
    non-empty [status] string, in the enumeration or not, the call returns
    normally, the result's [status] is the supplied string, and the entity
    is left unchanged. *)
Theorem safeUpdateOrder_stores_any_status (h : heap) lo lu o u s :
  h !! lo = Some o -> h !! lu = Some u ->
  obj_props u !! "status" = Some (VString s) -> s <> "" ->
  (forall original updates h0,
     (safeUpdateOrder original updates h0).1 <> Throw InvalidFieldError) /\
  exists r h',
    safeUpdateOrder (VRef lo) (VRef lu) h = (Normal (VRef r), h') /\
    field h' (VRef r) "status" = VString s /\
    h' !! lo = Some o.
Proof.
  intros Ho Hu Hs Hne. split.
  - intros original updates h0 E.
    destruct (safeUpdateOrder original updates h0) as [x h1] eqn:Hrun.
    cbn in E. subst x.
    by apply safeUpdateOrder_only_TypeError in Hrun.
  - destruct (safeUpdateOrder_run h lo lu o u Ho Hu) as (m & _ & Hrun).
    eexists _, _. split; [exact Hrun|]. split.
    + rewrite final_field by done. unfold result_props.
      rewrite assign_lookup_ne by done.
      assert (Hp : prop_of u "status" = VString s)
        by (unfold prop_of; by rewrite Hs).
      rewrite assign_lookup_truthy; rewrite Hp; [done|].
      cbn. destruct (String.eqb_spec s ""); done.
    + by apply final_frame.
Qed.

Lemma safeUpdateOrder_stores_any_status_witness :
  exists r h',
    safeUpdateOrder (VRef 1) (VRef 2) (scalar_heap "status" (VString "UNKNOWN"))
    = (Normal (VRef r), h') /\
    field h' (VRef r) "status" = VString "UNKNOWN" /\
    h' !! 1%positive = Some order_1.
Proof.
  apply (safeUpdateOrder_stores_any_status
           (scalar_heap "status" (VString "UNKNOWN")) 1 2 order_1
           (obj ObjectPrototype [("status", VString "UNKNOWN")]) "UNKNOWN");
    [reflexivity | reflexivity | reflexivity | discriminate].
Defined.

(** C2, at its failing input: on the order [{id: '1', amount: 100, status:
    'PAID'}] the update [{amount: 0}] supplies [amount], yet the result of
    [safeUpdateOrder] keeps the amount 100; the risky spread, run on the
    same input, does set it to 0. *)
Theorem safeUpdateOrder_drops_zero_amount :
  let h := scalar_heap "amount" (VNumber 0) in
  let '(r, h') := safeUpdateOrder (VRef 1) (VRef 2) h in
  let '(r'', h'') := riskyUpdateOrder (VRef 1) (VRef 2) h in
  field h (VRef 2) "amount" = VNumber 0 /\
  r = Normal (VRef 3) /\
  field h' (VRef 3) "amount" = VNumber 100 /\
  r'' = Normal (VRef 3) /\
  field h'' (VRef 3) "amount" = VNumber 0.
Proof. vm_compute. repeat split; reflexivity. Qed.




(** ** Validity of the result *)

Lemma is_plain_object_frame (h h' : heap) v :
  (forall l x, h !! l = Some x -> h' !! l = Some x) ->
  is_plain_object h v = true -> is_plain_object h' v = true.
Proof.
  intros Hsub. destruct v; cbn; try done.
  destruct (h !! l) as [x|] eqn:Hl; [|done]. by rewrite (Hsub _ _ Hl).
Qed.

Lemma field_ok_frame (h h' : heap) k v :
  (forall l x, h !! l = Some x -> h' !! l = Some x) ->
  field_ok h k v = true -> field_ok h' k v = true.
Proof.
  intros Hsub. unfold field_ok.
  repeat (destruct (String.eqb k _); [done|]).
  destruct (String.eqb k _); [|done]. by apply is_plain_object_frame.
Qed.

Lemma typed_fields_frame (h h' : heap) p :
  (forall l x, h !! l = Some x -> h' !! l = Some x) ->
  typed_fields h p -> typed_fields h' p.
Proof.
  intros Hsub Hp k v Hk. eapply field_ok_frame; [exact Hsub|]. by apply Hp.
Qed.

Lemma typed_fields_assign (h : heap) u k p :
  partial_fields h (obj_props u) -> typed_fields h p ->
  typed_fields h (assign_if_truthy u k p).
Proof.
  intros Hu Hp. unfold assign_if_truthy, prop_of.
  destruct (obj_props u !! k) as [v|] eqn:Hk; cbn; [|done].
  destruct (ToBoolean v) eqn:Hv; [|done].
  apply map_Forall_insert_2; [|done].
  specialize (Hu k v Hk). cbn in Hu. by destruct v.
Qed.

Lemma typed_fields_no_method (h : heap) p :
  typed_fields h p -> p !! "isPaid" = None.
Proof.
  intros Hp. destruct (p !! "isPaid") as [v|] eqn:E; [|done].
  specialize (Hp _ _ E). done.
Qed.

(** C4: on a valid entity and an update whose supplied fields satisfy the
    field constraints, the safe update returns a valid entity: an instance
    of [Order], whose own properties are declared fields of their declared
    types (in particular [status] in the enumeration), with every field of
    the original still present, and on which [isPaid()] returns a boolean
    that is [true] exactly when the resulting [status] is ['PAID']. *)
Theorem safeUpdateOrder_valid (h : heap) lo lu o u :
  h !! lo = Some o -> h !! lu = Some u ->
  obj_proto o = OrderPrototype ->
  typed_fields h (obj_props o) ->
  partial_fields h (obj_props u) ->
  exists r h' o',
    safeUpdateOrder (VRef lo) (VRef lu) h = (Normal (VRef r), h') /\
    h' !! r = Some o' /\
    instanceOf h' (VRef r) OrderPrototype = true /\
    typed_fields h' (obj_props o') /\
    dom (obj_props o) ⊆ dom (obj_props o') /\
    exists b,
      call_isPaid (VRef r) h' = (Normal (VBool b), h') /\
      (b = true <-> field h' (VRef r) "status" = VString "PAID").
Proof.
  intros Ho Hu Hproto Htyped Hpartial.
  destruct (safeUpdateOrder_run h lo lu o u Ho Hu) as (m & _ & Hrun).
  assert (Hnp : obj_props o !! "__proto__" = None).
  { destruct (obj_props o !! "__proto__") as [v|] eqn:E; [|done].
    by specialize (Htyped _ _ E). }
  rewrite (constructed_proto_id h OrderPrototype o Hnp) in Hrun.
  set (h' := final_heap OrderPrototype h o u m) in *.
  pose proof (final_result OrderPrototype h o u m) as Hres. fold h' in Hres.
  assert (Hframe : forall l x, h !! l = Some x -> h' !! l = Some x)
    by (intros l x; apply final_frame).
  assert (Hscalars : typed_fields h' (result_props o u)).
  { apply (typed_fields_frame h); [done|].
    unfold result_props. rewrite (constructed_props_id o Hnp).
    apply typed_fields_assign; [exact Hpartial|].
    apply typed_fields_assign; [exact Hpartial|exact Htyped]. }
  assert (Hall : typed_fields h'
            (if ToBoolean (prop_of u "metadata")
             then <["metadata" := VRef (merged_loc h)]> (result_props o u)
             else result_props o u)).
  { destruct (ToBoolean (prop_of u "metadata")) eqn:Hm; [|done].
    apply map_Forall_insert_2; [|done].
    cbn. subst h'. by rewrite final_merged. }
  eexists _, _, _. split; [exact Hrun|]. split; [exact Hres|].
  split; [|split; [exact Hall|split]].
  - unfold instanceOf, proto_of. by rewrite Hres.
  - cbn. assert (dom (obj_props o) ⊆ dom (result_props o u)).
    { unfold result_props, assign_if_truthy.
      rewrite (constructed_props_id o Hnp).
      repeat destruct (ToBoolean _); rewrite ?dom_insert; set_solver. }
    destruct (ToBoolean _); rewrite ?dom_insert; set_solver.
  - exists (StrictEquals (field h' (VRef (result_loc h)) "status")
              (VString "PAID")).
    split; [|apply StrictEquals_string].
    unfold call_isPaid. rewrite Hres. cbn.
    by rewrite (typed_fields_no_method h' _ Hall).
Qed.

Lemma safeUpdateOrder_valid_witness :
  exists r h' o',
    safeUpdateOrder (VRef 2) (VRef 4) scenario_heap = (Normal (VRef r), h') /\
    h' !! r = Some o' /\
    instanceOf h' (VRef r) OrderPrototype = true /\
    typed_fields h' (obj_props o') /\
    dom (obj_props order_o_123) ⊆ dom (obj_props o') /\
    exists b,
      call_isPaid (VRef r) h' = (Normal (VBool b), h') /\
      (b = true <-> field h' (VRef r) "status" = VString "PAID").
Proof.
  apply (safeUpdateOrder_valid scenario_heap 2 4 order_o_123 update_paid_trace);
    [ reflexivity | reflexivity | reflexivity
    | apply (bool_decide_unpack _); vm_compute; exact I
    | apply (bool_decide_unpack _); vm_compute; exact I ].
Defined.

(** C5: on an entity, which owns no property [__proto__], a field that the
    update omits, so each top-level scalar field ([id], [amount], [status])
    it omits, has in the result the value it has in the original. *)
Theorem safeUpdateOrder_omitted_field (h : heap) lo lu o u k :
  h !! lo = Some o -> h !! lu = Some u ->
  obj_props o !! "__proto__" = None ->
  obj_props u !! k = None ->
  exists r h',
    safeUpdateOrder (VRef lo) (VRef lu) h = (Normal (VRef r), h') /\
    field h' (VRef r) k = field h (VRef lo) k.
Proof.
  intros Ho Hu Hnp Hnone.
  destruct (safeUpdateOrder_run h lo lu o u Ho Hu) as (m & _ & Hrun).
  eexists _, _. split; [exact Hrun|].
  assert (Hprops : result_props o u !! k = obj_props o !! k).
  { unfold result_props.
    by rewrite !assign_lookup_omitted, (constructed_props_id o Hnp). }
  rewrite (field_ref h lo o _ Ho). unfold field, prop_of.
  rewrite final_result. cbn.
  destruct (ToBoolean (prop_of u "metadata")) eqn:Hm.
  - assert (k <> "metadata").
    { intros ->. unfold prop_of in Hm. by rewrite Hnone in Hm. }
    by rewrite lookup_insert_ne, Hprops.
  - by rewrite Hprops.
Qed.

Lemma safeUpdateOrder_omitted_field_witness :
  exists r h',
    safeUpdateOrder (VRef 2) (VRef 4) scenario_heap = (Normal (VRef r), h') /\
    field h' (VRef r) "amount" = field scenario_heap (VRef 2) "amount".
Proof.
  apply (safeUpdateOrder_omitted_field scenario_heap 2 4
           order_o_123 update_paid_trace "amount"); reflexivity.
Defined.

(** C6: the safe update leaves every object that existed before the call
    as it was: the original keeps its prototype and all its properties, and
    so does the object its [metadata] refers to. *)
Theorem safeUpdateOrder_no_mutation (h : heap) lo lu o u :
  h !! lo = Some o -> h !! lu = Some u ->
  exists r h',
    safeUpdateOrder (VRef lo) (VRef lu) h = (Normal (VRef r), h') /\
    h' !! lo = Some o /\
    (forall lm m,
       obj_props o !! "metadata" = Some (VRef lm) -> h !! lm = Some m ->
       h' !! lm = Some m) /\
    (forall l x, h !! l = Some x -> h' !! l = Some x).
Proof.
  intros Ho Hu.
  destruct (safeUpdateOrder_run h lo lu o u Ho Hu) as (m & _ & Hrun).
  eexists _, _. split; [exact Hrun|].
  split; [by apply final_frame|].
  split; [intros lm x _ Hx; by apply final_frame|].
  intros l x. apply final_frame.
Qed.

Lemma safeUpdateOrder_no_mutation_witness :
  exists r h',
    safeUpdateOrder (VRef 2) (VRef 4) scenario_heap = (Normal (VRef r), h') /\
    h' !! 2%positive = Some order_o_123 /\
    (forall lm m,
       obj_props order_o_123 !! "metadata" = Some (VRef lm) ->
       scenario_heap !! lm = Some m -> h' !! lm = Some m) /\
    (forall l x, scenario_heap !! l = Some x -> h' !! l = Some x).
Proof.
  apply (safeUpdateOrder_no_mutation scenario_heap 2 4
           order_o_123 update_paid_trace); reflexivity.
Defined.

(** C7: on an entity, which owns no property [__proto__], and the empty
    update the safe update raises nothing and returns an object other than
    the original, equal to it in every own property, so in [id], [amount],
    [status] and [metadata]. *)
Theorem safeUpdateOrder_empty_update (h : heap) lo lu o u :
  h !! lo = Some o -> h !! lu = Some u ->
  obj_props o !! "__proto__" = None ->
  obj_props u = ∅ ->
  exists r h',
    safeUpdateOrder (VRef lo) (VRef lu) h = (Normal (VRef r), h') /\
    r <> lo /\
    (forall k, field h' (VRef r) k = field h (VRef lo) k) /\
    own_props h' (VRef r) = own_props h (VRef lo).
Proof.
  intros Ho Hu Hnp Hempty.
  destruct (safeUpdateOrder_run h lo lu o u Ho Hu) as (m & _ & Hrun).
  rewrite (constructed_proto_id h OrderPrototype o Hnp) in Hrun.
  assert (Hp : forall k, prop_of u k = VUndefined)
    by (intros k; unfold prop_of; by rewrite Hempty, lookup_empty).
  assert (Hres : final_heap OrderPrototype h o u m !! result_loc h
                 = Some (Object OrderPrototype (obj_props o))).
  { rewrite final_result, Hp. cbn.
    unfold result_props, assign_if_truthy.
    by rewrite !Hp, (constructed_props_id o Hnp). }
  eexists _, _. split; [exact Hrun|].
  split; [|split].
  - intros E. pose proof (result_loc_fresh h) as Hf. rewrite E in Hf. congruence.
  - intros k. unfold field. by rewrite Hres, Ho.
  - cbn. by rewrite Hres, Ho.
Qed.

Lemma safeUpdateOrder_empty_update_witness :
  exists r h',
    safeUpdateOrder (VRef 1) (VRef 2) empty_update_heap
    = (Normal (VRef r), h') /\
    r <> 1%positive /\
    (forall k, field h' (VRef r) k = field empty_update_heap (VRef 1) k) /\
    own_props h' (VRef r) = own_props empty_update_heap (VRef 1).
Proof.
  apply (safeUpdateOrder_empty_update empty_update_heap 1 2
           order_1 (obj ObjectPrototype [])); reflexivity.
Defined.



(** C9: on an entity and an update whose [metadata] is present, the risky
    update returns a plain object whose [metadata] is the update's metadata
    object itself, so it has exactly that object's keys and values and every
    other key of the original's metadata is gone; the result is not an
    instance of [Order] and calling [isPaid()] on it throws.  The companion
    file's [riskyUpdateConfig] is the same function. *)
Theorem riskyUpdateOrder_antipattern (h : heap) lo lu o u lm m :
  h !! lo = Some o -> h !! lu = Some u ->
  obj_props u !! "metadata" = Some (VRef lm) -> h !! lm = Some m ->
  exists r h',
    riskyUpdateOrder (VRef lo) (VRef lu) h = (Normal (VRef r), h') /\
    ConfigVariant.riskyUpdateConfig (VRef lo) (VRef lu) h = (Normal (VRef r), h') /\
    field h' (VRef r) "metadata" = VRef lm /\
    own_props h' (field h' (VRef r) "metadata") = obj_props m /\
    (forall k, obj_props m !! k = None ->
               field h' (field h' (VRef r) "metadata") k = VUndefined) /\
    instanceOf h' (VRef r) OrderPrototype = false /\
    call_isPaid (VRef r) h' = (Throw TypeError, h').
Proof.
  intros Ho Hu Hm Hlm.
  pose proof (riskyUpdateOrder_run h lo lu o u Ho Hu) as Hrun.
  pose proof (result_loc_fresh h) as Hr.
  assert (Hne : result_loc h <> lm) by congruence.
  set (h' := <[result_loc h :=
                 Object ObjectPrototype (obj_props u ∪ obj_props o)]> h) in *.
  assert (Hres : h' !! result_loc h
                 = Some (Object ObjectPrototype (obj_props u ∪ obj_props o)))
    by apply lookup_insert_eq.
  assert (Hmeta : field h' (VRef (result_loc h)) "metadata" = VRef lm).
  { unfold field. rewrite Hres. cbn.
    by rewrite (lookup_union_Some_l _ _ _ _ Hm). }
  assert (Hlm' : h' !! lm = Some m)
    by (subst h'; by rewrite lookup_insert_ne).
  exists (result_loc h), h'. split; [exact Hrun|].
  split; [exact Hrun|]. split; [exact Hmeta|]. rewrite Hmeta.
  split; [cbn; by rewrite Hlm'|].
  split; [intros k Hk; unfold field; by rewrite Hlm'; cbn; rewrite Hk|].
  split.
  - unfold instanceOf, proto_of. by rewrite Hres.
  - unfold call_isPaid. rewrite Hres. cbn.
    by destruct ((obj_props u ∪ obj_props o) !! "isPaid").
Qed.

Lemma riskyUpdateOrder_antipattern_witness :
  exists r h',
    riskyUpdateOrder (VRef 2) (VRef 4) scenario_heap = (Normal (VRef r), h') /\
    ConfigVariant.riskyUpdateConfig (VRef 2) (VRef 4) scenario_heap
    = (Normal (VRef r), h') /\
    field h' (VRef r) "metadata" = VRef 3 /\
    own_props h' (field h' (VRef r) "metadata")
    = list_to_map [("traceId", VString "safe_1")] /\
    (forall k,
       (list_to_map [("traceId", VString "safe_1")] : gmap string value) !! k
       = None ->
       field h' (field h' (VRef r) "metadata") k = VUndefined) /\
    instanceOf h' (VRef r) OrderPrototype = false /\
    call_isPaid (VRef r) h' = (Throw TypeError, h').
Proof.
  apply (riskyUpdateOrder_antipattern scenario_heap 2 4
           order_o_123 update_paid_trace 3
           (obj ObjectPrototype [("traceId", VString "safe_1")]));
    reflexivity.
Defined.

(** C10: on an entity and an update, [safeUpdateOrder] and the companion file's
    [safeUpdateConfig] return results at the same location that agree on
    every own property ([id], [amount], [status], [metadata]), whose
    [metadata] has the same contents, and they leave heaps that hold the
    same properties at every location; the results differ only in the class
    they are instances of. *)
Theorem safeUpdateOrder_safeUpdateConfig_agree (h : heap) lo lu o u :
  h !! lo = Some o -> h !! lu = Some u ->
  live h (prop_of o "metadata") -> live h (prop_of u "metadata") ->
  exists r h1 h2,
    safeUpdateOrder (VRef lo) (VRef lu) h = (Normal (VRef r), h1) /\
    ConfigVariant.safeUpdateConfig (VRef lo) (VRef lu) h = (Normal (VRef r), h2) /\
    (forall k, field h1 (VRef r) k = field h2 (VRef r) k) /\
    own_props h1 (field h1 (VRef r) "metadata")
    = own_props h2 (field h2 (VRef r) "metadata") /\
    (forall l, obj_props <$> h1 !! l = obj_props <$> h2 !! l).
Proof.
  intros Ho Hu Hlo Hlu.
  destruct (safeUpdateOrder_run h lo lu o u Ho Hu) as (m1 & Hm1 & Hrun1).
  destruct (safeUpdateConfig_run h lo lu o u Ho Hu) as (m2 & Hm2 & Hrun2).
  rewrite (Hm1 Hlo Hlu) in Hrun1. rewrite (Hm2 Hlo Hlu) in Hrun2.
  set (m := merged_props h o u) in *.
  assert (Hprops : forall l,
            obj_props <$> final_heap (constructed_proto h OrderPrototype o) h o u m !! l
            = obj_props <$> final_heap (constructed_proto h ConfigOrderPrototype o) h o u m !! l).
  { intros l. unfold final_heap. destruct (ToBoolean _).
    - destruct (decide (l = result_loc h)) as [->|];
        [ by rewrite !lookup_insert_eq
        | by rewrite !(lookup_insert_ne _ (result_loc h)) ].
    - destruct (decide (l = result_loc h)) as [->|];
        [ by rewrite !lookup_insert_eq
        | by rewrite !(lookup_insert_ne _ (result_loc h)) ]. }
  assert (Hfield : forall v k,
            field (final_heap (constructed_proto h OrderPrototype o) h o u m) v k
            = field (final_heap (constructed_proto h ConfigOrderPrototype o) h o u m) v k).
  { intros v k. unfold field. destruct v; try done.
    specialize (Hprops l).
    destruct (final_heap (constructed_proto h OrderPrototype o) h o u m !! l),
             (final_heap (constructed_proto h ConfigOrderPrototype o) h o u m !! l);
      cbn in *; congruence. }
  eexists _, _, _. split; [exact Hrun1|]. split; [exact Hrun2|].
  split; [intros k; apply Hfield|]. split; [|exact Hprops].
  rewrite Hfield.
  destruct (field _ _ "metadata"); try done. cbn.
  specialize (Hprops l).
  destruct (final_heap (constructed_proto h OrderPrototype o) h o u m !! l),
           (final_heap (constructed_proto h ConfigOrderPrototype o) h o u m !! l);
    cbn in *; congruence.
Qed.

Lemma safeUpdateOrder_safeUpdateConfig_agree_witness :
  exists r h1 h2,
    safeUpdateOrder (VRef 2) (VRef 4) scenario_heap = (Normal (VRef r), h1) /\
    ConfigVariant.safeUpdateConfig (VRef 2) (VRef 4) scenario_heap
    = (Normal (VRef r), h2) /\
    (forall k, field h1 (VRef r) k = field h2 (VRef r) k) /\
    own_props h1 (field h1 (VRef r) "metadata")
    = own_props h2 (field h2 (VRef r) "metadata") /\
    (forall l, obj_props <$> h1 !! l = obj_props <$> h2 !! l).
Proof.
  apply (safeUpdateOrder_safeUpdateConfig_agree scenario_heap 2 4
           order_o_123 update_paid_trace);
    [ reflexivity | reflexivity | vm_compute; eauto | vm_compute; eauto ].
Defined.

(** * Further properties of the update functions *)


(** ** Absent arguments *)

Lemma alloc_frame (h : heap) (o : object) l x :
  h !! l = Some x -> <[fresh (dom h) := o]> h !! l = Some x.
Proof.
  intros Hl. rewrite lookup_insert_ne; [done|].
  symmetry. by eapply fresh_ne.
Qed.

Lemma Get_nullish v k (h : heap) :
  nullish v = true -> Get v k h = (Throw TypeError, h).
Proof. by destruct v. Qed.

Lemma Get_not_nullish v k (h : heap) :
  nullish v = false -> Get v k h = (Normal (field h v k), h).
Proof. by destruct v. Qed.

(** [new Order(partial)] on any value: the new object sits at the first
    free location and holds the own properties of [partial] other than
    [__proto__], which goes to the prototype setter. *)
Lemma new_Order_run (h : heap) partial :
  live h partial ->
  new_Order partial h
  = (Normal (result_loc h),
     <[result_loc h :=
         Object (match own_props h partial !! "__proto__" with
                 | Some v => SetPrototype h OrderPrototype v
                 | None => OrderPrototype
                 end)
                (delete "__proto__" (own_props h partial))]> h).
Proof.
  intros Hlive.
  unfold new_Order, Object_assign, bind, alloc, ret; cbn.
  fold (result_loc h). rewrite alter_insert_eq. cbn.
  rewrite (right_id ∅ (∪)).
  rewrite (own_props_frame h); [|done|intros l x; apply alloc_frame].
  destruct (own_props h partial !! "__proto__"); [|done].
  by rewrite SetPrototype_alloc by apply result_loc_fresh.
Qed.

(** X2: called with [undefined] or [null] for [updates], the safe update
    throws [TypeError] at the first property read, whatever the original;
    every object that existed before the call is left as it was. *)
Theorem safeUpdateOrder_nullish_updates (h : heap) original updates :
  nullish updates = true ->
  exists h',
    safeUpdateOrder original updates h = (Throw TypeError, h') /\
    (forall l x, h !! l = Some x -> h' !! l = Some x).
Proof.
  intros Hnull.
  unfold safeUpdateOrder, new_Order, Object_assign.
  unfold bind at 1 2. unfold alloc at 1. cbn.
  unfold bind at 1. unfold CopyDataProperties at 1. cbn.
  unfold bind at 1 2. rewrite Get_nullish by done.
  eexists. split; [reflexivity|].
  intros l x Hl. rewrite alter_insert_eq. by apply alloc_frame.
Qed.

Lemma safeUpdateOrder_nullish_updates_witness :
  exists h',
    safeUpdateOrder (VRef 1) VUndefined empty_update_heap
    = (Throw TypeError, h') /\
    (forall l x, empty_update_heap !! l = Some x -> h' !! l = Some x).
Proof.
  apply (safeUpdateOrder_nullish_updates empty_update_heap (VRef 1) VUndefined).
  reflexivity.
Defined.

(** X3: called with [undefined] or [null] for [original], the safe update
    builds an empty [Order] and applies the truthy scalars of the update;
    it then throws [TypeError] exactly when the update carries a truthy
    [metadata], because [original.metadata] is read only in that branch.
    Otherwise it returns an [Order] holding just the applied scalars. *)
Theorem safeUpdateOrder_nullish_original (h : heap) original lu u :
  nullish original = true -> h !! lu = Some u ->
  exists h',
    (forall l x, h !! l = Some x -> h' !! l = Some x) /\
    if ToBoolean (prop_of u "metadata")
    then safeUpdateOrder original (VRef lu) h = (Throw TypeError, h')
    else
      exists r,
        safeUpdateOrder original (VRef lu) h = (Normal (VRef r), h') /\
        instanceOf h' (VRef r) OrderPrototype = true /\
        own_props h' (VRef r)
        = assign_if_truthy u "amount" (assign_if_truthy u "status" ∅).
Proof.
  intros Hnull Hu. pose proof (result_loc_fresh h) as Hr.
  assert (Hlive : live h original) by (by destruct original).
  assert (Hempty : own_props h original = ∅) by (by destruct original).
  set (p := assign_if_truthy u "amount" (assign_if_truthy u "status" ∅)).
  set (hB := <[result_loc h := Object OrderPrototype p]> h).
  set (hA := <[fresh (dom hB) := Object ObjectPrototype ∅]> hB).
  assert (Hne : result_loc h <> lu) by congruence.
  assert (HB : forall l x, h !! l = Some x -> hB !! l = Some x).
  { intros l x Hl. subst hB. by rewrite lookup_insert_ne by congruence. }
  assert (Hrun : safeUpdateOrder original (VRef lu) h
                 = if ToBoolean (prop_of u "metadata")
                   then (Throw TypeError, hA)
                   else (Normal (VRef (result_loc h)), hB)).
  { unfold safeUpdateOrder.
    unfold bind at 1. rewrite (new_Order_run h original Hlive), Hempty.
    rewrite lookup_empty, delete_empty.
    rewrite (run_assign h lu u Hu) by done.
    rewrite (run_assign h lu u Hu) by done. fold p. fold hB.
    unfold bind at 1 2. unfold Get at 1. unfold field. cbn.
    subst hB. rewrite lookup_insert_ne, Hu by done. cbn.
    fold (prop_of u "metadata").
    destruct (ToBoolean (prop_of u "metadata")); cbn; [|done].
    unfold bind at 1 2. by rewrite Get_nullish. }
  rewrite Hrun. destruct (ToBoolean (prop_of u "metadata")).
  - exists hA. split; [|done].
    intros l x Hl. subst hA. apply alloc_frame. by apply HB.
  - exists hB. split; [exact HB|]. exists (result_loc h). split; [done|].
    subst hB. unfold instanceOf, proto_of, own_props.
    by rewrite lookup_insert_eq.
Qed.

Lemma safeUpdateOrder_nullish_original_witness :
  exists h' r,
    safeUpdateOrder VNull (VRef 2) (scalar_heap "status" (VString "PAID")) 
    = (Normal (VRef r), h') /\
    own_props h' (VRef r) = {[ "status" := VString "PAID" ]}.
Proof.
  destruct (safeUpdateOrder_nullish_original
              (scalar_heap "status" (VString "PAID")) VNull 2
              (obj ObjectPrototype [("status", VString "PAID")]))
    as (h' & _ & Hcase); [reflexivity | reflexivity |].
  change (ToBoolean _) with false in Hcase.
  destruct Hcase as (r & Hrun & _ & Hprops).
  exists h', r. split; [exact Hrun|]. exact Hprops.
Defined.

(** ** The risky update beyond metadata *)

(** X4: the spread overwrites on presence, not on truthiness: every
    property the update owns, a falsy one or an explicit [undefined]
    included, is the result's; every property it lacks is the original's. *)
Theorem riskyUpdateOrder_presence (h : heap) lo lu o u k :
  h !! lo = Some o -> h !! lu = Some u ->
  exists r h',
    riskyUpdateOrder (VRef lo) (VRef lu) h = (Normal (VRef r), h') /\
    field h' (VRef r) k
    = match obj_props u !! k with
      | Some v => v
      | None => field h (VRef lo) k
      end.
Proof.
  intros Ho Hu. eexists _, _.
  split; [exact (riskyUpdateOrder_run h lo lu o u Ho Hu)|].
  unfold field. rewrite lookup_insert_eq, Ho. cbn. rewrite lookup_union.
  destruct (obj_props u !! k), (obj_props o !! k); done.
Qed.

Lemma riskyUpdateOrder_presence_witness :
  exists r h',
    riskyUpdateOrder (VRef 1) (VRef 2) (scalar_heap "status" VUndefined)
    = (Normal (VRef r), h') /\
    field h' (VRef r) "status" = VUndefined.
Proof.
  apply (riskyUpdateOrder_presence (scalar_heap "status" VUndefined) 1 2
           order_1 (obj ObjectPrototype [("status", VUndefined)]) "status");
    reflexivity.
Defined.

(** X5: on any two values, [undefined] and [null] included, the risky
    update throws nothing, returns a newly allocated plain object, never an
    [Order], and leaves every existing object as it was. *)
Theorem riskyUpdateOrder_total_pure (h : heap) original updates :
  exists r h',
    riskyUpdateOrder original updates h = (Normal (VRef r), h') /\
    h !! r = None /\
    proto_of h' (VRef r) = Some ObjectPrototype /\
    instanceOf h' (VRef r) OrderPrototype = false /\
    (forall l x, h !! l = Some x -> h' !! l = Some x).
Proof.
  unfold riskyUpdateOrder, bind, alloc, CopyDataProperties, ret. cbn.
  fold (result_loc h). rewrite !alter_insert_eq. cbn.
  eexists _, _. split; [reflexivity|].
  split; [apply result_loc_fresh|].
  unfold instanceOf, proto_of. rewrite lookup_insert_eq. cbn.
  repeat split. intros l x Hl. by apply alloc_frame.
Qed.

(** ** Which properties the safe update writes *)

#[local] Set Warnings "-clear-no-such-hyp".

Lemma assign_lookup u k p k' :
  assign_if_truthy u k p !! k'
  = if decide (k = k')
    then (if ToBoolean (prop_of u k) then Some (prop_of u k) else p !! k')
    else p !! k'.
Proof.
  unfold assign_if_truthy. destruct (decide (k = k')) as [->|Hne].
  - destruct (ToBoolean _); [apply lookup_insert_eq | done].
  - destruct (ToBoolean _); [by apply lookup_insert_ne | done].
Qed.

Lemma assign_dom u k p :
  dom p ⊆ dom (assign_if_truthy u k p) /\
  dom (assign_if_truthy u k p) ⊆ dom p ∪ {[k]}.
Proof.
  unfold assign_if_truthy. destruct (ToBoolean _);
    rewrite ?dom_insert_L; set_solver.
Qed.

(** X6: the safe update writes no property but [status], [amount] and
    [metadata]: the result owns every property of the original other than
    [__proto__], which the constructor hands to the prototype setter, and
    beyond those at most these three, whatever else the update carries. *)
Theorem safeUpdateOrder_keys (h : heap) lo lu o u :
  h !! lo = Some o -> h !! lu = Some u ->
  exists r h',
    safeUpdateOrder (VRef lo) (VRef lu) h = (Normal (VRef r), h') /\
    dom (obj_props o) ∖ {["__proto__"]} ⊆ dom (own_props h' (VRef r)) /\
    dom (own_props h' (VRef r))
    ⊆ dom (obj_props o) ∖ {["__proto__"]}
      ∪ {["status"; "amount"; "metadata"]}.
Proof.
  intros Ho Hu.
  destruct (safeUpdateOrder_run h lo lu o u Ho Hu) as (m & _ & Hrun).
  eexists _, _. split; [exact Hrun|].
  unfold own_props. rewrite final_result. cbn.
  pose proof (assign_dom u "status" (constructed_props o)) as [Hs1 Hs2].
  pose proof (assign_dom u "amount"
                (assign_if_truthy u "status" (constructed_props o)))
    as [Ha1 Ha2].
  fold (result_props o u) in Ha1, Ha2.
  assert (Hc : dom (constructed_props o) = dom (obj_props o) ∖ {["__proto__"]})
    by apply dom_delete_L.
  rewrite <- Hc.
  destruct (ToBoolean _); rewrite ?dom_insert_L; set_solver.
Qed.

Lemma safeUpdateOrder_keys_witness :
  exists r h',
    safeUpdateOrder (VRef 1) (VRef 2) (scalar_heap "note" (VString "n"))
    = (Normal (VRef r), h') /\
    dom (obj_props order_1) ∖ {["__proto__"]} ⊆ dom (own_props h' (VRef r)) /\
    dom (own_props h' (VRef r))
    ⊆ dom (obj_props order_1) ∖ {["__proto__"]}
      ∪ {["status"; "amount"; "metadata"]}.
Proof.
  apply (safeUpdateOrder_keys (scalar_heap "note" (VString "n")) 1 2
           order_1 (obj ObjectPrototype [("note", VString "n")]));
    reflexivity.
Defined.

(** ** Sharing of the metadata object *)

Lemma result_props_metadata o u :
  result_props o u !! "metadata" = obj_props o !! "metadata".
Proof.
  unfold result_props. by rewrite !assign_lookup_ne, constructed_props_lookup.
Qed.

Lemma final_field_metadata P (h : heap) o u m :
  field (final_heap P h o u m) (VRef (result_loc h)) "metadata"
  = if ToBoolean (prop_of u "metadata") then VRef (merged_loc h)
    else prop_of o "metadata".
Proof.
  unfold field. rewrite final_result.
  destruct (ToBoolean (prop_of u "metadata")).
  - cbn. by rewrite lookup_insert_eq.
  - cbn [mbind option_bind obj_props]. by rewrite result_props_metadata.
Qed.

(** X7: when the update carries no truthy [metadata], the result's
    [metadata] is the very object of the original (the constructor copies
    the reference), so a later write through the result, [result.metadata.k
    = v], is read back through the original. *)
Theorem safeUpdateOrder_shares_metadata (h : heap) lo lu o u lm m k v :
  h !! lo = Some o -> h !! lu = Some u ->
  ToBoolean (prop_of u "metadata") = false ->
  obj_props o !! "metadata" = Some (VRef lm) -> h !! lm = Some m ->
  lm <> lo ->
  exists r h',
    safeUpdateOrder (VRef lo) (VRef lu) h = (Normal (VRef r), h') /\
    field h' (VRef r) "metadata" = VRef lm /\
    field h' (VRef lo) "metadata" = VRef lm /\
    let h'' := (Put lm k v h').2 in
    field h'' (field h'' (VRef lo) "metadata") k = v.
Proof.
  intros Ho Hu Hfalsy Hmeta Hlm Hne.
  destruct (safeUpdateOrder_run h lo lu o u Ho Hu) as (mm & _ & Hrun).
  set (h' := final_heap (constructed_proto h OrderPrototype o) h o u mm) in *.
  assert (Hframe : forall l x, h !! l = Some x -> h' !! l = Some x)
    by (intros l x; apply final_frame).
  eexists _, _. split; [exact Hrun|]. split; [|split].
  - subst h'. rewrite final_field_metadata, Hfalsy.
    unfold prop_of. by rewrite Hmeta.
  - unfold field. rewrite (Hframe _ _ Ho). cbn. by rewrite Hmeta.
  - cbn. unfold field.
    rewrite lookup_alter_ne, (Hframe _ _ Ho) by done. cbn. rewrite Hmeta. cbn.
    rewrite lookup_alter_eq, (Hframe _ _ Hlm). cbn.
    by rewrite lookup_insert_eq.
Qed.

Lemma safeUpdateOrder_shares_metadata_witness :
  exists r h',
    safeUpdateOrder (VRef 2) (VRef 3) scenario_heap = (Normal (VRef r), h') /\
    field h' (VRef r) "metadata" = VRef 1 /\
    field h' (VRef 2) "metadata" = VRef 1 /\
    let h'' := (Put 1 "campaign" (VString "winter") h').2 in
    field h'' (field h'' (VRef 2) "metadata") "campaign" = VString "winter".
Proof.
  apply (safeUpdateOrder_shares_metadata scenario_heap 2 3 order_o_123
           (obj ObjectPrototype [("traceId", VString "safe_1")]) 1
           (obj ObjectPrototype
              [("campaign", VString "summer_sale");
               ("referrer", VString "google")])
           "campaign" (VString "winter"));
    [ reflexivity | reflexivity | reflexivity | reflexivity | reflexivity
    | discriminate ].
Defined.

(** X8: when the update carries a truthy [metadata], the result's
    [metadata] is an object allocated by the call, so a later write through
    the result, [result.metadata.k = v], changes no object that existed
    before the call: neither the original's metadata nor the update's. *)
Theorem safeUpdateOrder_merged_is_fresh (h : heap) lo lu o u k v :
  h !! lo = Some o -> h !! lu = Some u ->
  ToBoolean (prop_of u "metadata") = true ->
  exists r r2 h',
    safeUpdateOrder (VRef lo) (VRef lu) h = (Normal (VRef r), h') /\
    field h' (VRef r) "metadata" = VRef r2 /\
    h !! r2 = None /\
    proto_of h' (VRef r2) = Some ObjectPrototype /\
    forall l x, h !! l = Some x -> (Put r2 k v h').2 !! l = Some x.
Proof.
  intros Ho Hu Htruthy.
  destruct (safeUpdateOrder_run h lo lu o u Ho Hu) as (mm & _ & Hrun).
  destruct (merged_loc_fresh h) as [Hfresh Hne].
  exists (result_loc h), (merged_loc h), (final_heap (constructed_proto h OrderPrototype o) h o u mm).
  split; [exact Hrun|]. split; [|split; [exact Hfresh|split]].
  - by rewrite final_field_metadata, Htruthy.
  - unfold proto_of. by rewrite final_merged.
  - intros l x Hl. cbn. rewrite lookup_alter_ne by congruence.
    by apply final_frame.
Qed.

Lemma safeUpdateOrder_merged_is_fresh_witness :
  exists r r2 h',
    safeUpdateOrder (VRef 2) (VRef 4) scenario_heap = (Normal (VRef r), h') /\
    field h' (VRef r) "metadata" = VRef r2 /\
    scenario_heap !! r2 = None /\
    proto_of h' (VRef r2) = Some ObjectPrototype /\
    forall l x,
      scenario_heap !! l = Some x ->
      (Put r2 "campaign" (VString "winter") h').2 !! l = Some x.
Proof.
  apply (safeUpdateOrder_merged_is_fresh scenario_heap 2 4
           order_o_123 update_paid_trace "campaign" (VString "winter"));
    reflexivity.
Defined.

(** ** Updates in sequence *)

(** What one safe update leaves, in the form the next one starts from. *)
Lemma safeUpdateOrder_summary (h : heap) lo lu o u :
  h !! lo = Some o -> h !! lu = Some u ->
  live h (prop_of o "metadata") -> live h (prop_of u "metadata") ->
  exists r h' o',
    safeUpdateOrder (VRef lo) (VRef lu) h = (Normal (VRef r), h') /\
    h' !! r = Some o' /\
    (forall l x, h !! l = Some x -> h' !! l = Some x) /\
    (forall k, k <> "metadata" ->
               obj_props o' !! k = result_props o u !! k) /\
    live h' (prop_of o' "metadata") /\
    own_props h' (prop_of o' "metadata")
    = if ToBoolean (prop_of u "metadata")
      then own_props h (prop_of u "metadata")
           ∪ own_props h (prop_of o "metadata")
      else own_props h (prop_of o "metadata").
Proof.
  intros Ho Hu Hlo Hlu.
  destruct (safeUpdateOrder_run h lo lu o u Ho Hu) as (m & Hm & Hrun).
  rewrite (Hm Hlo Hlu) in Hrun. clear Hm.
  set (h' := final_heap (constructed_proto h OrderPrototype o) h o u (merged_props h o u)) in *.
  assert (Hframe : forall l x, h !! l = Some x -> h' !! l = Some x)
    by (intros l x; apply final_frame).
  pose proof (final_result (constructed_proto h OrderPrototype o) h o u (merged_props h o u)) as Hres.
  pose proof (final_field_metadata (constructed_proto h OrderPrototype o) h o u (merged_props h o u))
    as Hmeta.
  fold h' in Hres, Hmeta.
  unfold field in Hmeta. rewrite Hres in Hmeta.
  cbn [mbind option_bind] in Hmeta.
  eexists _, _, _. split; [exact Hrun|]. split; [exact Hres|].
  split; [exact Hframe|]. split.
  - intros k Hk. cbn. destruct (ToBoolean _); [by rewrite lookup_insert_ne|done].
  - unfold prop_of at 1 3. rewrite Hmeta.
    destruct (ToBoolean (prop_of u "metadata")) eqn:Ht.
    + assert (Hmerged : h' !! merged_loc h
                        = Some (Object ObjectPrototype (merged_props h o u)))
        by (by apply final_merged).
      split; [cbn; eauto|]. cbn. by rewrite Hmerged.
    + split.
      * destruct (prop_of o "metadata"); try done.
        destruct Hlo as [x Hx]. cbn. rewrite (Hframe _ _ Hx). eauto.
      * by apply own_props_frame.
Qed.

Lemma result_props_lookup o u k :
  result_props o u !! k
  = if decide (k = "amount")
    then (if ToBoolean (prop_of u "amount") then Some (prop_of u "amount")
          else constructed_props o !! k)
    else if decide (k = "status")
    then (if ToBoolean (prop_of u "status") then Some (prop_of u "status")
          else constructed_props o !! k)
    else constructed_props o !! k.
Proof.
  unfold result_props. rewrite !assign_lookup.
  destruct (decide (k = "amount")) as [->|Ha].
  - rewrite decide_True by done.
    destruct (ToBoolean (prop_of u "amount")); [done|].
    by rewrite decide_False.
  - rewrite (decide_False (P := "amount" = k)) by done.
    destruct (decide (k = "status")) as [->|Hs].
    + by rewrite decide_True.
    + by rewrite decide_False.
Qed.

Lemma live_frame (h h' : heap) v :
  live h v -> (forall l x, h !! l = Some x -> h' !! l = Some x) -> live h' v.
Proof.
  intros Hv Hsub. destruct v; try done. destruct Hv as [x Hx].
  cbn. rewrite (Hsub _ _ Hx). eauto.
Qed.

(** Two safe updates in a row, the second applied to the result of the
    first. *)
Lemma safeUpdateOrder_twice_run (h : heap) lo lu1 lu2 o u1 u2 :
  h !! lo = Some o -> h !! lu1 = Some u1 -> h !! lu2 = Some u2 ->
  live h (prop_of o "metadata") ->
  live h (prop_of u1 "metadata") -> live h (prop_of u2 "metadata") ->
  exists r1 h1 o1 r2 h2 o2,
    safeUpdateOrder (VRef lo) (VRef lu1) h = (Normal (VRef r1), h1) /\
    safeUpdateOrder (VRef r1) (VRef lu2) h1 = (Normal (VRef r2), h2) /\
    h1 !! r1 = Some o1 /\ h2 !! r2 = Some o2 /\ h2 !! r1 = Some o1 /\
    (forall k, k <> "metadata" ->
               obj_props o1 !! k = result_props o u1 !! k) /\
    (forall k, k <> "metadata" ->
               obj_props o2 !! k = result_props o1 u2 !! k) /\
    own_props h1 (prop_of o1 "metadata")
    = (if ToBoolean (prop_of u1 "metadata")
       then own_props h (prop_of u1 "metadata")
            ∪ own_props h (prop_of o "metadata")
       else own_props h (prop_of o "metadata")) /\
    own_props h2 (prop_of o2 "metadata")
    = (if ToBoolean (prop_of u2 "metadata")
       then own_props h (prop_of u2 "metadata")
            ∪ own_props h1 (prop_of o1 "metadata")
       else own_props h1 (prop_of o1 "metadata")).
Proof.
  intros Ho Hu1 Hu2 Hlo Hl1 Hl2.
  destruct (safeUpdateOrder_summary h lo lu1 o u1 Ho Hu1 Hlo Hl1)
    as (r1 & h1 & o1 & Hrun1 & Hr1 & Hframe1 & Hk1 & Hlive1 & Hm1).
  destruct (safeUpdateOrder_summary h1 r1 lu2 o1 u2 Hr1 (Hframe1 _ _ Hu2)
              Hlive1 (live_frame h h1 _ Hl2 Hframe1))
    as (r2 & h2 & o2 & Hrun2 & Hr2 & Hframe2 & Hk2 & Hlive2 & Hm2).
  exists r1, h1, o1, r2, h2, o2.
  rewrite (own_props_frame h h1 _ Hl2 Hframe1) in Hm2.
  repeat split; try done. by apply Hframe2.
Qed.

Lemma result_props_scalar o u k :
  k = "amount" \/ k = "status" ->
  result_props o u !! k
  = if ToBoolean (prop_of u k) then Some (prop_of u k) else obj_props o !! k.
Proof.
  intros [-> | ->]; rewrite result_props_lookup; cbn;
    by rewrite constructed_props_lookup.
Qed.

(** X9: two safe updates in a row, starting from an original that owns no
    property [__proto__].  For [amount] and for [status] the second update's
    value wins when truthy, else the first's when truthy, else the
    original's; the final [metadata] holds the original's properties,
    overlaid by those of the first update's metadata when that is truthy,
    overlaid by those of the second's when that is truthy; the intermediate
    result is not changed by the second call. *)
Theorem safeUpdateOrder_twice (h : heap) lo lu1 lu2 o u1 u2 :
  h !! lo = Some o -> h !! lu1 = Some u1 -> h !! lu2 = Some u2 ->
  obj_props o !! "__proto__" = None ->
  live h (prop_of o "metadata") ->
  live h (prop_of u1 "metadata") -> live h (prop_of u2 "metadata") ->
  exists r1 h1 r2 h2,
    safeUpdateOrder (VRef lo) (VRef lu1) h = (Normal (VRef r1), h1) /\
    safeUpdateOrder (VRef r1) (VRef lu2) h1 = (Normal (VRef r2), h2) /\
    h2 !! r1 = h1 !! r1 /\
    (forall k, k ∈ ["amount"; "status"] ->
       field h2 (VRef r2) k
       = if ToBoolean (prop_of u2 k) then prop_of u2 k
         else if ToBoolean (prop_of u1 k) then prop_of u1 k
         else prop_of o k) /\
    own_props h2 (field h2 (VRef r2) "metadata")
    = let first :=
        if ToBoolean (prop_of u1 "metadata")
        then own_props h (prop_of u1 "metadata")
             ∪ own_props h (prop_of o "metadata")
        else own_props h (prop_of o "metadata") in
      if ToBoolean (prop_of u2 "metadata")
      then own_props h (prop_of u2 "metadata") ∪ first
      else first.
Proof.
  intros Ho Hu1 Hu2 _ Hlo Hl1 Hl2.
  destruct (safeUpdateOrder_twice_run h lo lu1 lu2 o u1 u2
              Ho Hu1 Hu2 Hlo Hl1 Hl2)
    as (r1 & h1 & o1 & r2 & h2 & o2 & Hrun1 & Hrun2 & Hr1 & Hr2 & Hr1'
        & Hk1 & Hk2 & Hm1 & Hm2).
  exists r1, h1, r2, h2. split; [exact Hrun1|]. split; [exact Hrun2|].
  split; [congruence|]. split.
  - intros k Hk.
    assert (Hcases : k = "amount" \/ k = "status")
      by (rewrite !elem_of_cons, elem_of_nil in Hk; tauto).
    assert (Hne : k <> "metadata") by (by destruct Hcases as [-> | ->]).
    rewrite (field_ref h2 r2 o2 _ Hr2). unfold prop_of at 1.
    rewrite (Hk2 k Hne), (result_props_scalar o1 u2 k Hcases).
    rewrite (Hk1 k Hne), (result_props_scalar o u1 k Hcases).
    unfold prop_of. repeat (destruct (ToBoolean _)); done.
  - rewrite (field_ref h2 r2 o2 _ Hr2), Hm2, Hm1. done.
Qed.

Lemma safeUpdateOrder_twice_witness :
  exists r1 h1 r2 h2,
    safeUpdateOrder (VRef 2) (VRef 4) scenario_heap = (Normal (VRef r1), h1) /\
    safeUpdateOrder (VRef r1) (VRef 3) h1 = (Normal (VRef r2), h2) /\
    h2 !! r1 = h1 !! r1 /\
    field h2 (VRef r2) "status" = VString "PAID".
Proof.
  destruct (safeUpdateOrder_twice scenario_heap 2 4 3 order_o_123
              update_paid_trace
              (obj ObjectPrototype [("traceId", VString "safe_1")]))
    as (r1 & h1 & r2 & h2 & Hrun1 & Hrun2 & Hsame & Hscalar & _);
    [ reflexivity | reflexivity | reflexivity | reflexivity
    | vm_compute; eauto | vm_compute; eauto | exact I | ].
  exists r1, h1, r2, h2. split; [exact Hrun1|]. split; [exact Hrun2|].
  split; [exact Hsame|].
  apply (Hscalar "status"). apply (bool_decide_unpack _). vm_compute. exact I.
Defined.



(** ** The constructor and the method *)

(** X11: on a [partial] that owns neither [__proto__] nor [isPaid],
    [new Order(partial)] throws nothing, be [partial] an object, a
    primitive, [undefined] or [null]: it returns a newly allocated instance
    of [Order] holding the own properties of [partial] and leaves every
    existing object as it was, and [isPaid()] on the new order returns
    [true] if the [status] of [partial] is ['PAID'] and [false] otherwise, a
    missing [status] included. *)
Theorem new_Order_isPaid (h : heap) partial :
  live h partial ->
  own_props h partial !! "__proto__" = None ->
  own_props h partial !! "isPaid" = None ->
  exists r h',
    new_Order partial h = (Normal r, h') /\
    h !! r = None /\
    (forall l x, h !! l = Some x -> h' !! l = Some x) /\
    instanceOf h' (VRef r) OrderPrototype = true /\
    own_props h' (VRef r) = own_props h partial /\
    exists b,
      call_isPaid (VRef r) h' = (Normal (VBool b), h') /\
      (b = true <-> own_props h partial !! "status" = Some (VString "PAID")).
Proof.
  intros Hlive Hnp Hno.
  pose proof (new_Order_run h partial Hlive) as Hrun.
  rewrite Hnp, (delete_id _ _ Hnp) in Hrun.
  set (p := own_props h partial) in *.
  set (h' := <[result_loc h := Object OrderPrototype p]> h) in *.
  assert (Hres : h' !! result_loc h = Some (Object OrderPrototype p))
    by apply lookup_insert_eq.
  exists (result_loc h), h'.
  split; [exact Hrun|].
  split; [apply result_loc_fresh|].
  split; [intros l x Hl; by apply alloc_frame|].
  split; [unfold instanceOf, proto_of; by rewrite Hres|].
  split; [unfold own_props; by rewrite Hres|].
  exists (StrictEquals (default VUndefined (p !! "status")) (VString "PAID")).
  split.
  - unfold call_isPaid. rewrite Hres. cbn [obj_props obj_proto]. rewrite Hno.
    unfold Order_isPaid, bind, Get, field, ret. by rewrite Hres.
  - rewrite StrictEquals_string.
    destruct (p !! "status"); cbn; split; congruence.
Qed.

Lemma new_Order_isPaid_witness :
  exists r h',
    new_Order (VRef 1) empty_update_heap = (Normal r, h') /\
    empty_update_heap !! r = None /\
    (forall l x, empty_update_heap !! l = Some x -> h' !! l = Some x) /\
    instanceOf h' (VRef r) OrderPrototype = true /\
    own_props h' (VRef r) = own_props empty_update_heap (VRef 1) /\
    exists b,
      call_isPaid (VRef r) h' = (Normal (VBool b), h') /\
      (b = true <->
       own_props empty_update_heap (VRef 1) !! "status"
       = Some (VString "PAID")).
Proof.
  apply (new_Order_isPaid empty_update_heap (VRef 1));
    [ vm_compute; eauto | reflexivity | reflexivity ].
Defined.

(** ** Where the safe and the risky update agree *)

(** X12: when the original owns no property [__proto__], the update owns
    nothing but [status] and [amount] and each value it owns is truthy, the
    safe and the risky update return objects that agree on every property;
    they differ in that only the safe result is an [Order]. *)
Theorem safe_risky_agree (h : heap) lo lu o u :
  h !! lo = Some o -> h !! lu = Some u ->
  obj_props o !! "__proto__" = None ->
  map_Forall (fun k v => k ∈ ["status"; "amount"] /\ ToBoolean v = true)
             (obj_props u) ->
  exists r h1 h2,
    safeUpdateOrder (VRef lo) (VRef lu) h = (Normal (VRef r), h1) /\
    riskyUpdateOrder (VRef lo) (VRef lu) h = (Normal (VRef r), h2) /\
    (forall k, field h1 (VRef r) k = field h2 (VRef r) k) /\
    instanceOf h1 (VRef r) OrderPrototype = true /\
    instanceOf h2 (VRef r) OrderPrototype = false.
Proof.
  intros Ho Hu Hnp Hkeys.
  destruct (safeUpdateOrder_run h lo lu o u Ho Hu) as (m & _ & Hrun).
  rewrite (constructed_proto_id h OrderPrototype o Hnp) in Hrun.
  pose proof (riskyUpdateOrder_run h lo lu o u Ho Hu) as Hrisky.
  assert (Hmeta : obj_props u !! "metadata" = None).
  { destruct (obj_props u !! "metadata") as [v|] eqn:E; [|done].
    destruct (Hkeys _ _ E) as [Hin _].
    rewrite !elem_of_cons, elem_of_nil in Hin.
    intuition discriminate. }
  assert (Hfalsy : ToBoolean (prop_of u "metadata") = false)
    by (unfold prop_of; by rewrite Hmeta).
  eexists _, _, _. split; [exact Hrun|]. split; [exact Hrisky|].
  split; [|split].
  - intros k. unfold field.
    rewrite final_result, Hfalsy, lookup_insert_eq. cbn.
    rewrite result_props_lookup, lookup_union. unfold prop_of.
    rewrite (constructed_props_id o Hnp).
    destruct (obj_props u !! k) as [v|] eqn:E.
    + destruct (Hkeys _ _ E) as [Hin Hv].
      rewrite !elem_of_cons, elem_of_nil in Hin.
      destruct Hin as [-> | [-> | []]]; cbn; rewrite E; cbn; rewrite Hv;
        repeat case_decide; try done;
        match goal with
        | |- context [obj_props o !! ?key] => by destruct (obj_props o !! key)
        end.
    + repeat case_decide; subst; rewrite ?E; cbn;
        match goal with
        | |- context [obj_props o !! ?key] => by destruct (obj_props o !! key)
        end.
  - unfold instanceOf, proto_of. by rewrite final_result.
  - unfold instanceOf, proto_of. by rewrite lookup_insert_eq.
Qed.

Lemma safe_risky_agree_witness :
  exists r h1 h2,
    safeUpdateOrder (VRef 1) (VRef 2) (scalar_heap "amount" (VNumber 200))
    = (Normal (VRef r), h1) /\
    riskyUpdateOrder (VRef 1) (VRef 2) (scalar_heap "amount" (VNumber 200))
    = (Normal (VRef r), h2) /\
    (forall k, field h1 (VRef r) k = field h2 (VRef r) k) /\
    instanceOf h1 (VRef r) OrderPrototype = true /\
    instanceOf h2 (VRef r) OrderPrototype = false.
Proof.
  apply (safe_risky_agree (scalar_heap "amount" (VNumber 200)) 1 2
           order_1 (obj ObjectPrototype [("amount", VNumber 200)]));
    [ reflexivity | reflexivity | reflexivity
    | apply (bool_decide_unpack _); vm_compute; exact I ].
Defined.

(** ** The companion file's safe update *)

(** X13: [safeUpdateConfig] on an original that owns no property
    [__proto__] and an update whose [metadata] is a record returns an instance of that file's [Order] whose [metadata] keeps every
    property of the original's metadata that the update's metadata does not
    own and has every property of the update's metadata; the original is
    left as it was. *)
Theorem safeUpdateConfig_merges (h : heap) lo lu o u lm m :
  h !! lo = Some o -> h !! lu = Some u ->
  obj_props o !! "__proto__" = None ->
  live h (prop_of o "metadata") ->
  obj_props u !! "metadata" = Some (VRef lm) -> h !! lm = Some m ->
  exists r h',
    ConfigVariant.safeUpdateConfig (VRef lo) (VRef lu) h
    = (Normal (VRef r), h') /\
    instanceOf h' (VRef r) ConfigOrderPrototype = true /\
    h' !! lo = Some o /\
    (forall k v, obj_props m !! k = Some v ->
                 own_props h' (field h' (VRef r) "metadata") !! k = Some v) /\
    (forall k, obj_props m !! k = None ->
               own_props h' (field h' (VRef r) "metadata") !! k
               = own_props h (field h (VRef lo) "metadata") !! k).
Proof.
  intros Ho Hu Hnp Hlo Hmeta Hlm.
  assert (Hp : prop_of u "metadata" = VRef lm)
    by (unfold prop_of; by rewrite Hmeta).
  assert (Hlu : live h (prop_of u "metadata")) by (rewrite Hp; cbn; eauto).
  destruct (safeUpdateConfig_run h lo lu o u Ho Hu) as (mm & Hmm & Hrun).
  rewrite (Hmm Hlo Hlu) in Hrun. clear Hmm.
  rewrite (constructed_proto_id h ConfigOrderPrototype o Hnp) in Hrun.
  set (h' := final_heap ConfigOrderPrototype h o u (merged_props h o u)) in *.
  assert (Hfield : field h' (VRef (result_loc h)) "metadata"
                   = VRef (merged_loc h))
    by (subst h'; by rewrite final_field_metadata, Hp).
  assert (Hmerged : h' !! merged_loc h
                    = Some (Object ObjectPrototype (merged_props h o u)))
    by (apply final_merged; by rewrite Hp).
  assert (Hlookup : own_props h' (VRef (merged_loc h))
                    = obj_props m ∪ own_props h (prop_of o "metadata")).
  { unfold own_props at 1. rewrite Hmerged. cbn.
    unfold merged_props. rewrite Hp. cbn. by rewrite Hlm. }
  eexists _, _. split; [exact Hrun|]. rewrite Hfield.
  split; [|split; [by apply final_frame|split]].
  - unfold instanceOf, proto_of. subst h'. by rewrite final_result.
  - intros k v Hk. rewrite Hlookup.
    by rewrite (lookup_union_Some_l _ _ _ _ Hk).
  - intros k Hk. rewrite Hlookup, lookup_union_r by done.
    by rewrite (field_ref h lo o _ Ho).
Qed.

Lemma safeUpdateConfig_merges_witness :
  exists r h',
    ConfigVariant.safeUpdateConfig (VRef 2) (VRef 4) scenario_heap
    = (Normal (VRef r), h') /\
    instanceOf h' (VRef r) ConfigOrderPrototype = true /\
    own_props h' (field h' (VRef r) "metadata") !! "referrer"
    = own_props scenario_heap (field scenario_heap (VRef 2) "metadata")
      !! "referrer".
Proof.
  destruct (safeUpdateConfig_merges scenario_heap 2 4
              order_o_123 update_paid_trace 3
              (obj ObjectPrototype [("traceId", VString "safe_1")]))
    as (r & h' & Hrun & Hinst & _ & _ & Hkept);
    [ reflexivity | reflexivity | reflexivity | vm_compute; eauto
    | reflexivity | reflexivity | ].
  exists r, h'. split; [exact Hrun|]. split; [exact Hinst|].
  apply Hkept. reflexivity.
Defined.

(** * The fulfilment services *)

Import Fulfillment.

Lemma append_cons c (s t : string) : String c s ++ t = String c (s ++ t).
Proof. reflexivity. Qed.

Lemma prefix_append (s t : string) : String.prefix s (s ++ t) = true.
Proof.
  induction s as [|c s IH].
  - by destruct t.
  - rewrite append_cons. simpl.
    destruct (Ascii.ascii_dec c c) as [_|Hne]; [exact IH | contradiction].
Qed.

Lemma append_assoc (s t w : string) : (s ++ t) ++ w = s ++ (t ++ w).
Proof.
  induction s as [|c s IH]; [done|].
  rewrite !append_cons. by f_equal.
Qed.

Lemma shipped_prefix item a p :
  String.prefix ("Shipped " ++ item) (shipped item a p) = true.
Proof.
  unfold shipped.
  rewrite <- (append_assoc "Shipped " item). apply prefix_append.
Qed.

(** X14: the legacy service guards the address alone: it throws
    [Error('Missing Address')] exactly when the customer has no address,
    and a customer with an address but no payment method makes it throw a
    [TypeError] instead; given both it returns a message that starts with
    ['Shipped '] followed by the item. *)
Theorem Legacy_processOrder_outcomes (customer : Customer) (item : string) :
  (Legacy_processOrder customer item = ThrownError "Missing Address"
   <-> address customer = None) /\
  (Legacy_processOrder customer item = ThrownTypeError
   <-> address customer <> None /\ paymentMethod customer = None) /\
  (forall a p, address customer = Some a -> paymentMethod customer = Some p ->
     Legacy_processOrder customer item = Returned (shipped item a p) /\
     String.prefix ("Shipped " ++ item) (shipped item a p) = true).
Proof.
  unfold Legacy_processOrder.
  destruct (address customer) as [a|], (paymentMethod customer) as [p|];
    (split; [|split]); try (split; intros; try done; intuition congruence).
  all: intros a' p' Ha Hp; try done.
  injection Ha as <-. injection Hp as <-.
  split; [done | apply shipped_prefix].
Qed.

(** X15: the modern service never ends in a [TypeError], whatever the
    database returns: it throws [Error('Customer data incomplete')] exactly
    when the database returns nothing or a customer lacking the address or
    the payment method, and on a complete customer it returns what the
    legacy service returns for that customer. *)
Theorem Modern_processOrder_outcomes (db : Database) (customerId item : string) :
  Modern_processOrder db customerId item <> ThrownTypeError /\
  (Modern_processOrder db customerId item
   = ThrownError "Customer data incomplete"
   <-> match getCustomerWithDetails db customerId with
       | None => True
       | Some c => address c = None \/ paymentMethod c = None
       end) /\
  (forall c a p,
     getCustomerWithDetails db customerId = Some c ->
     address c = Some a -> paymentMethod c = Some p ->
     Modern_processOrder db customerId item = Returned (shipped item a p) /\
     Modern_processOrder db customerId item = Legacy_processOrder c item).
Proof.
  unfold Modern_processOrder, Legacy_processOrder.
  destruct (getCustomerWithDetails db customerId) as [c|].
  - destruct (address c) as [a|] eqn:Ea, (paymentMethod c) as [p|] eqn:Ep.
    + split; [done|]. split; [split; [done|intros [|]; done]|].
      intros c' a' p' [= <-] Ha Hp. rewrite Ea in Ha. rewrite Ep in Hp.
      injection Ha as <-. injection Hp as <-. by rewrite Ea, Ep.
    + split; [done|]. split; [split; auto|].
      intros c' a' p' [= <-] Ha Hp. congruence.
    + split; [done|]. split; [split; auto|].
      intros c' a' p' [= <-] Ha Hp. congruence.
    + split; [done|]. split; [split; auto|].
      intros c' a' p' [= <-] Ha Hp. congruence.
  - split; [done|]. split; [done|]. intros c a p Hc. done.
Qed.

(** X16: on the mock database the modern service fails for no customer id
    and no item: it returns the shipping message of the mock customer,
    which starts with ['Shipped '] followed by the item and does not depend
    on the id asked for. *)
Theorem Modern_processOrder_MockDatabase (customerId item : string) :
  Modern_processOrder MockDatabase customerId item
  = Returned ("Shipped " ++ item
              ++ " to 123 Main St using card ending in 4242") /\
  String.prefix ("Shipped " ++ item)
    ("Shipped " ++ item ++ " to 123 Main St using card ending in 4242")
  = true /\
  forall otherId,
    Modern_processOrder MockDatabase otherId item
    = Modern_processOrder MockDatabase customerId item.
Proof.
  split; [reflexivity|]. split; [|reflexivity].
  rewrite <- (append_assoc "Shipped " item). apply prefix_append.
Qed.
